(** * AIResearch_Agent: the in-repo logic of [agents.py]

    A shallow embedding of the three pieces of logic the script owns:
    the page fetcher [visit_webpage], the formatter
    [format_agent_response], and the part of the Streamlit script that
    maintains [st.session_state.search_history] and extracts the source
    URLs with [re.findall].

    Python values are modelled as follows.
    - A [str] is the list of its Unicode code points ([pystr]).
    - An exception is its class together with the text [str(e)] gives.
    - A call that may raise returns a [result].
    - The HTTP client, the HTML-to-Markdown converter and [str.title] are
      supplied by the environment and appear as section variables. *)

From Stdlib Require Import String Ascii DecimalString DecimalPos DecimalZ.
From Stdlib Require Import NArith ZArith Bool Lia List Permutation.
Import ListNotations.

(** ** Python strings *)

Module PyStr.

Definition pystr := list N.

(** An ASCII literal of the source. *)
Definition lit (s : string) : pystr :=
  map N_of_ascii (list_ascii_of_string s).

Definition nl : N := 10.

Fixpoint eqb (a b : pystr) : bool :=
  match a, b with
  | [], [] => true
  | x :: a', y :: b' => N.eqb x y && eqb a' b'
  | _, _ => false
  end.

(** [str.isspace] on one code point (Unicode White_Space together with
    the four ASCII separators 0x1C-0x1F, as CPython has it). *)
Definition isspace (c : N) : bool :=
  ((9 <=? c) && (c <=? 13) || (28 <=? c) && (c <=? 32)
   || (c =? 133) || (c =? 160) || (c =? 5760)
   || (8192 <=? c) && (c <=? 8202)
   || (c =? 8232) || (c =? 8233) || (c =? 8239) || (c =? 8287)
   || (c =? 12288))%N.

Fixpoint lstrip (s : pystr) : pystr :=
  match s with
  | c :: s' => if isspace c then lstrip s' else s
  | [] => []
  end.

Definition rstrip (s : pystr) : pystr := rev (lstrip (rev s)).

(** [s.strip()] *)
Definition strip (s : pystr) : pystr := rstrip (lstrip s).

(** [s.startswith(p)] *)
Fixpoint startswith (p s : pystr) : bool :=
  match p, s with
  | [], _ => true
  | x :: p', y :: s' => N.eqb x y && startswith p' s'
  | _ :: _, [] => false
  end.

(** [p in s] *)
Fixpoint contains (p s : pystr) : bool :=
  startswith p s ||
  match s with
  | [] => false
  | _ :: s' => contains p s'
  end.

Definition pystr_eq_dec : forall a b : pystr, {a = b} + {a <> b} :=
  list_eq_dec N.eq_dec.

(** The longest prefix of characters of a class, and what follows it. *)
Fixpoint take_while (p : N -> bool) (s : pystr) : pystr :=
  match s with
  | c :: s' => if p c then c :: take_while p s' else []
  | [] => []
  end.

Fixpoint drop_while (p : N -> bool) (s : pystr) : pystr :=
  match s with
  | c :: s' => if p c then drop_while p s' else s
  | [] => []
  end.

(** [s] is empty or starts outside the class. *)
Definition breaks (p : N -> bool) (s : pystr) : bool :=
  match s with
  | c :: _ => negb (p c)
  | [] => true
  end.

(** The decimal numeral of an [int], as [str(n)] and an f-string write
    it. *)
Definition str_int (n : Z) : pystr :=
  lit (NilZero.string_of_int (Z.to_int n)).

(** The number of digits of that numeral, the sign left out. *)
Definition int_digits (n : Z) : nat :=
  match Z.to_int n with
  | Decimal.Pos d | Decimal.Neg d => Decimal.nb_digits d
  end.

(** [sys.get_int_max_str_digits()], at CPython's default: turning an
    [int] of more digits into a [str] is refused. *)
Definition int_max_str_digits : nat := 4300.

End PyStr.
Import PyStr.

(** ** Exceptions and fallible calls *)

Module Exc.

(** The classes the script can meet, with single inheritance. *)
Inductive exc_class :=
| BaseException | KeyboardInterrupt | SystemExit
| Exception | TypeError | ValueError | AttributeError | LookupError | KeyError
| RuntimeError | RecursionError
| OSError | RequestException | HTTPError | ConnectionError | Timeout.

Definition base (c : exc_class) : option exc_class :=
  match c with
  | BaseException => None
  | KeyboardInterrupt | SystemExit => Some BaseException
  | Exception => Some BaseException
  | TypeError | ValueError | AttributeError | LookupError | RuntimeError
  | OSError => Some Exception
  | KeyError => Some LookupError
  | RecursionError => Some RuntimeError
  | RequestException => Some OSError
  | HTTPError | ConnectionError | Timeout => Some RequestException
  end.

Definition class_eqb (c d : exc_class) : bool :=
  match c, d with
  | BaseException, BaseException | KeyboardInterrupt, KeyboardInterrupt
  | SystemExit, SystemExit | Exception, Exception | TypeError, TypeError
  | ValueError, ValueError
  | AttributeError, AttributeError | LookupError, LookupError
  | KeyError, KeyError | RuntimeError, RuntimeError
  | RecursionError, RecursionError | OSError, OSError
  | RequestException, RequestException | HTTPError, HTTPError
  | ConnectionError, ConnectionError | Timeout, Timeout => true
  | _, _ => false
  end.

Fixpoint ancestors (fuel : nat) (c : exc_class) : list exc_class :=
  c :: match fuel, base c with
       | S n, Some b => ancestors n b
       | _, _ => []
       end.

(** [issubclass(c, d)]; the hierarchy is four levels deep. *)
Definition issubclass (c d : exc_class) : bool :=
  existsb (class_eqb d) (ancestors 4 c).

Record exc := mk_exc { exc_type : exc_class; exc_str : pystr }.

Definition isinstance (e : exc) (d : exc_class) : bool :=
  issubclass (exc_type e) d.

Inductive result (A : Type) :=
| Return (a : A)
| Raise (e : exc).
Arguments Return {A} a.
Arguments Raise {A} e.

Definition bind {A B} (m : result A) (k : A -> result B) : result B :=
  match m with
  | Return a => k a
  | Raise e => Raise e
  end.

(** [try: body  except C1 as e: h1(e)  except C2 as e: h2(e) ...] :
    the first clause whose class the exception is an instance of
    handles it; with no such clause the exception propagates. *)
Fixpoint handle {A} (e : exc) (clauses : list (exc_class * (exc -> result A)))
  : result A :=
  match clauses with
  | [] => Raise e
  | (c, h) :: rest => if isinstance e c then h e else handle e rest
  end.

Definition try_except {A} (body : result A)
           (clauses : list (exc_class * (exc -> result A))) : result A :=
  match body with
  | Return a => Return a
  | Raise e => handle e clauses
  end.

End Exc.
Import Exc.

Declare Scope py_scope.
Notation "x <- m ;; k" := (bind m (fun x => k))
  (at level 61, m at next level, right associativity) : py_scope.
Open Scope py_scope.

(** ** The part of [re] the script uses *)

Module Re.

(** Patterns, with the backtracking semantics of Python's engine:
    alternatives are tried left to right and repetitions are greedy. *)
Inductive regex :=
| Eps
| Cls (p : N -> bool)          (* one character of a class *)
| Seq (a b : regex)            (* ab *)
| Alt (a b : regex)            (* a|b *)
| Opt (a : regex)              (* a? *)
| Rep (n : nat) (a : regex).   (* a{n,}; a+ is a{1,} *)

(** The greedy loop of [a{n,}]: [step] matches [a] once; [need] counts
    the iterations still required, and each further one is tried
    before the continuation is. An iteration that succeeds uses up a
    character, so [fuel] is the length of the input. *)
Fixpoint rep_loop (step : pystr -> (pystr -> option pystr) -> option pystr)
         (k : pystr -> option pystr) (fuel need : nat) (s : pystr)
  : option pystr :=
  match fuel with
  | O => if Nat.eqb need 0 then k s else None
  | S fuel' =>
      match step s (fun s' => rep_loop step k fuel' (pred need) s') with
      | Some x => Some x
      | None => if Nat.eqb need 0 then k s else None
      end
  end.

(** [run r s k]: match [r] at the start of [s] and hand what is left
    of the input to the continuation [k]; when [k] refuses, the next
    way of matching [r] is tried. The result is the input left after
    the whole match. *)
Fixpoint run (r : regex) (s : pystr) (k : pystr -> option pystr)
  : option pystr :=
  match r with
  | Eps => k s
  | Cls p =>
      match s with
      | c :: s' => if p c then k s' else None
      | [] => None
      end
  | Seq a b => run a s (fun s' => run b s' k)
  | Alt a b =>
      match run a s k with
      | Some x => Some x
      | None => run b s k
      end
  | Opt a =>
      match run a s k with
      | Some x => Some x
      | None => k s
      end
  | Rep n a => rep_loop (run a) k (List.length s) n s
  end.

(** A continuation that accepts whatever it is given. *)
Definition accepting (k : pystr -> option pystr) : Prop :=
  forall x, k x <> None.

(** [pattern.match(s)]: the input left after the match, if any. *)
Definition match_at (r : regex) (s : pystr) : option pystr :=
  run r s Some.

(** The text a match at the start of [s] covers, given what it left. *)
Definition matched (s rest : pystr) : pystr :=
  firstn (length s - length rest) s.

(** [re.findall(r, s)] for a pattern without groups: the matches found
    scanning left to right, each search starting where the previous
    match ended. [skip] counts the characters of the current match
    still to step over. The two patterns of the script match no empty
    string; a match of length zero is treated as no match. *)
Fixpoint findall_from (r : regex) (s : pystr) (skip : nat) : list pystr :=
  match s with
  | [] => []
  | _ :: s' =>
      match skip with
      | S n => findall_from r s' n
      | O =>
          match match_at r s with
          | Some rest =>
              match matched s rest with
              | [] => findall_from r s' 0
              | m => m :: findall_from r s' (length m - 1)
              end
          | None => findall_from r s' 0
          end
      end
  end.

Definition findall (r : regex) (s : pystr) : list pystr :=
  findall_from r s 0.

(** [re.sub(r, repl, s)] for a replacement without back-references:
    every match is replaced, everything else is copied. *)
Fixpoint sub_from (r : regex) (repl s : pystr) (skip : nat) : pystr :=
  match s with
  | [] => []
  | c :: s' =>
      match skip with
      | S n => sub_from r repl s' n
      | O =>
          match match_at r s with
          | Some rest =>
              match matched s rest with
              | [] => c :: sub_from r repl s' 0
              | m => repl ++ sub_from r repl s' (length m - 1)
              end
          | None => c :: sub_from r repl s' 0
          end
      end
  end.

Definition sub (r : regex) (repl s : pystr) : pystr :=
  sub_from r repl s 0.

(** Building blocks for writing the patterns down. *)
Definition code (a : ascii) : N := N_of_ascii a.
Definition chr (a : ascii) : regex := Cls (N.eqb (code a)).
Definition range (a b : ascii) (c : N) : bool :=
  ((code a <=? c) && (c <=? code b))%N.
Definition one_of (l : list ascii) (c : N) : bool :=
  existsb (fun a => N.eqb (code a) c) l.
Definition either (p q : N -> bool) (c : N) : bool := p c || q c.
Fixpoint literal (l : list ascii) : regex :=
  match l with
  | [] => Eps
  | a :: l' => Seq (chr a) (literal l')
  end.

End Re.
Import Re.

Open Scope char_scope.

(** [r"\n{3,}"] *)
Definition newline_runs : regex := Rep 3 (Cls (N.eqb nl)).

(** [[a-zA-Z]], [[0-9]], [[$-_@.&+]], [[!*\\(\\),]] and [[0-9a-fA-F]];
    in the third class [$-_] is a range. *)
Definition cls_alpha : N -> bool := either (range "a" "z") (range "A" "Z").
Definition cls_digit : N -> bool := range "0" "9".
Definition cls_punct : N -> bool :=
  either (range "$" "_") (one_of ["@"; "."; "&"; "+"]).
Definition cls_misc : N -> bool := one_of ["!"; "*"; "\"; "("; "\"; ")"; ","].
Definition cls_hex : N -> bool :=
  either (range "0" "9") (either (range "a" "f") (range "A" "F")).

(** [r'http[s]?://(?:[a-zA-Z]|[0-9]|[$-_@.&+]|[!*\\(\\),]|(?:%[0-9a-fA-F][0-9a-fA-F]))+'] *)
Definition url_char : regex :=
  Alt (Cls cls_alpha)
      (Alt (Cls cls_digit)
           (Alt (Cls cls_punct)
                (Alt (Cls cls_misc)
                     (Seq (chr "%") (Seq (Cls cls_hex) (Cls cls_hex)))))).

Definition url_pattern : regex :=
  Seq (literal ["h"; "t"; "t"; "p"])
      (Seq (Opt (chr "s"))
           (Seq (literal [":"; "/"; "/"]) (Rep 1 url_char))).

(** The characters one round of the loop of [url_pattern] accepts. *)
Definition url_class (c : N) : bool :=
  cls_alpha c || cls_digit c || cls_punct c || cls_misc c.

(** Shapes of text around the URLs of a result. A URL is a scheme
    followed by a tail: one character or more, all of them accepted by
    the loop. A text stops a URL when it starts with a character the
    loop refuses. No match starts in [part], followed by [rest], when
    the pattern matches at none of the positions of [part]. *)
Definition scheme (secure : bool) : pystr :=
  if secure then lit "https://" else lit "http://".

Definition url_tail (t : pystr) : bool :=
  match t with
  | [] => false
  | _ :: _ => forallb url_class t
  end.

Definition stops (s : pystr) : bool :=
  match s with
  | [] => false
  | c :: _ => negb (url_class c)
  end.

Fixpoint no_match_starts (part rest : pystr) : bool :=
  match part with
  | [] => true
  | _ :: part' =>
      match Re.match_at url_pattern (part ++ rest) with
      | Some _ => false
      | None => no_match_starts part' rest
      end
  end.

Definition is_nl (c : N) : bool := N.eqb nl c.

(** Runs of three or more newlines cut down to two, written without a
    pattern: [seen] counts the newlines of the current run already
    copied, and a newline is copied only while that is less than two. *)
Fixpoint collapse_from (seen : nat) (s : pystr) : pystr :=
  match s with
  | [] => []
  | c :: s' =>
      if is_nl c then
        if Nat.ltb seen 2 then c :: collapse_from (S seen) s'
        else collapse_from seen s'
      else c :: collapse_from 0 s'
  end.

Definition collapse (s : pystr) : pystr := collapse_from 0 s.

(** The newlines of the current run that were copied. *)
Definition copied (seen : nat) : pystr :=
  match seen with
  | 0 => []
  | 1 => [nl]
  | _ => [nl; nl]
  end.

Close Scope char_scope.


(** ** [visit_webpage] *)

Module Requests.

(** What of a [requests.Response] the script looks at. *)
Record Response := mk_response {
  status_code : Z;
  reason : pystr;
  resp_url : pystr;
  text : pystr
}.

(** [Response.raise_for_status()]: an [HTTPError] for the statuses
    400-599, nothing otherwise. *)
Definition raise_for_status (r : Response) : result unit :=
  if ((400 <=? status_code r) && (status_code r <? 500))%Z then
    Raise (mk_exc HTTPError
             (str_int (status_code r) ++ lit " Client Error: " ++ reason r
              ++ lit " for url: " ++ resp_url r))
  else if ((500 <=? status_code r) && (status_code r <? 600))%Z then
    Raise (mk_exc HTTPError
             (str_int (status_code r) ++ lit " Server Error: " ++ reason r
              ++ lit " for url: " ++ resp_url r))
  else Return tt.

End Requests.
Import Requests.

Section Fetch.

(** [requests.get] and [markdownify.markdownify]: what the network and
    the converter answer is not the script's to decide. *)
Variable requests_get : pystr -> result Response.
Variable markdownify : pystr -> result pystr.

(** The statements under [try:]. *)
Definition visit_webpage_try (url : pystr) : result pystr :=
  response <- requests_get url ;;
  _ <- raise_for_status response ;;
  converted <- markdownify (text response) ;;
  let markdown_content := strip converted in
  let markdown_content := Re.sub newline_runs [nl; nl] markdown_content in
  Return markdown_content.

Definition visit_webpage (url : pystr) : result pystr :=
  try_except (visit_webpage_try url)
    [ (RequestException,
       fun e => Return (lit "Error fetching the webpage: " ++ exc_str e));
      (Exception,
       fun e => Return (lit "An unexpected error occurred: " ++ exc_str e)) ].

End Fetch.

(** The words that open the two error texts. *)
Definition fetch_error_prefix : pystr := lit "Error fetching the webpage".
Definition unexpected_prefix : pystr := lit "An unexpected error occurred:".

(** ** [format_agent_response] *)

Module Value.

(** An object of a type the formatter does not tell apart (a float, a
    list, a nested dict, [bytes], an instance of a class of the agent
    library, ...) is known by what the formatter can ask of it: the name
    of its type, what [str()] does on it, and what evaluating
    [f"{key.title()}"] does on it, [None] when it has no attribute
    [title]. A float has none; for the [bytes] key [b'first key'] the
    f-string gives the text [b'First Key'], prefix and quotes
    included. *)
Record pyobject := mk_object {
  obj_type : pystr;
  obj_str : result pystr;
  obj_title : option (result pystr)
}.

(** Values an agent run can hand back, as far as the formatter tells
    them apart. An [AOpaque] object is equal to no [str]. *)
Inductive pyatom :=
| ANone
| ABool (b : bool)
| AInt (n : Z)
| AStr (s : pystr)
| AOpaque (o : pyobject).

(** A [dict] keeps its items in insertion order. *)
Inductive pyval :=
| Atom (a : pyatom)
| Dict (items : list (pyatom * pyatom)).

(** [type(a).__name__] *)
Definition type_name_of (a : pyatom) : pystr :=
  match a with
  | ANone => lit "NoneType"
  | ABool _ => lit "bool"
  | AInt _ => lit "int"
  | AStr _ => lit "str"
  | AOpaque o => obj_type o
  end.

(** [str(n)] for an [int]: the numeral, unless it has more digits than
    the limit allows. *)
Definition int_limit_message : pystr :=
  lit "Exceeds the limit (4300 digits) for integer string conversion; use sys.set_int_max_str_digits() to increase the limit".

Definition str_of_int (n : Z) : result pystr :=
  if Nat.ltb int_max_str_digits (int_digits n) then
    Raise (mk_exc ValueError int_limit_message)
  else Return (str_int n).

(** [str(a)] *)
Definition str (a : pyatom) : result pystr :=
  match a with
  | ANone => Return (lit "None")
  | ABool true => Return (lit "True")
  | ABool false => Return (lit "False")
  | AInt n => str_of_int n
  | AStr s => Return s
  | AOpaque o => obj_str o
  end.

(** Whether a call returns, and what it returns when it does. *)
Definition returns {A} (r : result A) : bool :=
  match r with
  | Return _ => true
  | Raise _ => false
  end.

Definition text_of (r : result pystr) : pystr :=
  match r with
  | Return s => s
  | Raise _ => []
  end.

(** [k == name] for a [str] [name] *)
Definition key_is (name : pystr) (k : pyatom) : bool :=
  match k with
  | AStr s => PyStr.eqb s name
  | _ => false
  end.

(** [name in d] *)
Definition dict_contains (items : list (pyatom * pyatom)) (name : pystr)
  : bool :=
  existsb (fun kv => key_is name (fst kv)) items.

(** [d[name]] *)
Definition dict_getitem (items : list (pyatom * pyatom)) (name : pystr)
  : result pyatom :=
  match find (fun kv => key_is name (fst kv)) items with
  | Some kv => Return (snd kv)
  | None => Raise (mk_exc KeyError (lit "'" ++ name ++ lit "'"))
  end.

(** [sep.join(parts)]: every part has to be a [str]. *)
Fixpoint join_from (i : nat) (sep : pystr) (parts : list pyatom)
  : result pystr :=
  match parts with
  | [] => Return []
  | AStr s :: rest =>
      tail <- join_from (S i) sep rest ;;
      Return (match rest with [] => s | _ => s ++ sep ++ tail end)
  | other :: _ =>
      Raise (mk_exc TypeError
               (lit "sequence item " ++ str_int (Z.of_nat i)
                ++ lit ": expected str instance, " ++ type_name_of other
                ++ lit " found"))
  end.

Definition join (sep : pystr) (parts : list pyatom) : result pystr :=
  join_from 0 sep parts.

(** The same on parts known to be strings. *)
Fixpoint join_strs (sep : pystr) (parts : list pystr) : pystr :=
  match parts with
  | [] => []
  | [s] => s
  | s :: rest => s ++ sep ++ join_strs sep rest
  end.

End Value.
Import Value.

Section Formatter.

(** [str.title], a built-in that follows the Unicode case tables. *)
Variable str_title : pystr -> pystr.

(** [key.title()] *)
Definition no_attribute (a : pyatom) (name : pystr) : exc :=
  mk_exc AttributeError
    (lit "'" ++ type_name_of a ++ lit "' object has no attribute '"
     ++ name ++ lit "'").

(** [f"{key.title()}"] *)
Definition title (key : pyatom) : result pystr :=
  match key with
  | AStr s => Return (str_title s)
  | AOpaque o =>
      match obj_title o with
      | Some outcome => outcome
      | None => Raise (no_attribute key (lit "title"))
      end
  | other => Raise (no_attribute other (lit "title"))
  end.

(** The loop [for key, value in response.items()]. *)
Fixpoint dump_items (items : list (pyatom * pyatom))
         (formatted_parts : list pyatom) : result (list pyatom) :=
  match items with
  | [] => Return formatted_parts
  | (key, value) :: rest =>
      t <- title key ;;
      let formatted_parts := formatted_parts ++ [AStr (lit "### " ++ t)] in
      s <- str value ;;
      let formatted_parts := formatted_parts ++ [AStr s] in
      dump_items rest formatted_parts
  end.

(** One of the three blocks [if name in response: ...]. *)
Definition section_for (items : list (pyatom * pyatom)) (name header : pystr)
           (formatted_parts : list pyatom) : result (list pyatom) :=
  if dict_contains items name then
    let formatted_parts := formatted_parts ++ [AStr header] in
    v <- dict_getitem items name ;;
    Return (formatted_parts ++ [v])
  else Return formatted_parts.

Definition format_agent_response (response : pyval) : result pystr :=
  match response with
  | Dict items =>
      let formatted_parts := [] in
      formatted_parts <- section_for items (lit "thoughts")
                           (lit "## Thought Process") formatted_parts ;;
      formatted_parts <- section_for items (lit "observations")
                           (lit "## Observations") formatted_parts ;;
      formatted_parts <- section_for items (lit "answer")
                           (lit "## Answer") formatted_parts ;;
      formatted_parts <-
        match formatted_parts with
        | [] => dump_items items [AStr (lit "## Results")]
        | _ => Return formatted_parts
        end ;;
      join [nl; nl] formatted_parts
  | Atom a => str a
  end.

(** [sources = re.findall(..., formatted_result)] *)
Definition sources (formatted_result : pystr) : list pystr :=
  Re.findall url_pattern formatted_result.

End Formatter.

(** *** The documents the formatter is meant to produce

    Written from the description of the formatter rather than from its
    code: the headed sections in their fixed order, and the per-key dump. *)

Section Documents.

Variable str_title : pystr -> pystr.

Definition recognized_keys : list (pystr * pystr) :=
  [ (lit "thoughts", lit "## Thought Process");
    (lit "observations", lit "## Observations");
    (lit "answer", lit "## Answer") ].

Definition has_recognized (items : list (pyatom * pyatom)) : bool :=
  existsb (fun nh => dict_contains items (fst nh)) recognized_keys.

(** The header and the text of one section, when its key is there. *)
Definition headed (items : list (pyatom * pyatom)) (nh : pystr * pystr)
  : list pystr :=
  match find (fun kv => key_is (fst nh) (fst kv)) items with
  | Some (_, AStr s) => [snd nh; s]
  | _ => []
  end.

(** The same two parts as the code appends them, whatever the value. *)
Definition section_atoms (items : list (pyatom * pyatom))
           (nh : pystr * pystr) : list pyatom :=
  match find (fun kv => key_is (fst nh) (fst kv)) items with
  | Some kv => [AStr (snd nh); snd kv]
  | None => []
  end.

Definition fixed_order_document (items : list (pyatom * pyatom)) : pystr :=
  join_strs [nl; nl] (flat_map (headed items) recognized_keys).

Definition results_document (items : list (pyatom * pyatom)) : pystr :=
  join_strs [nl; nl]
    (lit "## Results"
     :: flat_map (fun kv => [lit "### " ++ text_of (title str_title (fst kv));
                             text_of (str (snd kv))]) items).

(** The value stored under [name], if any, is a [str]. *)
Definition str_valued (items : list (pyatom * pyatom)) (name : pystr)
  : bool :=
  match find (fun kv => key_is name (fst kv)) items with
  | Some (_, AStr _) | None => true
  | Some _ => false
  end.

Definition recognized_are_str (items : list (pyatom * pyatom)) : bool :=
  forallb (fun nh => str_valued items (fst nh)) recognized_keys.

(** [key.title()] returns: the key is a string, or an object whose
    [title] does. *)
Definition has_title (key : pyatom) : bool :=
  match key with
  | AStr _ => true
  | AOpaque o =>
      match obj_title o with
      | Some outcome => returns outcome
      | None => false
      end
  | _ => false
  end.

(** [key.title()] and [str(value)] return for every item. *)
Definition dumpable (items : list (pyatom * pyatom)) : bool :=
  forallb (fun kv => has_title (fst kv) && returns (str (snd kv))) items.

End Documents.

(** ** The search history kept in [st.session_state] *)

Module Session.

(** [search_history] is [None] while the key is not in the session. *)
Record session_state := mk_session { search_history : option (list pystr) }.

Definition history (st : session_state) : list pystr :=
  match search_history st with
  | Some h => h
  | None => []
  end.

(** [h[-5:]] *)
Definition last_five (h : list pystr) : list pystr :=
  skipn (List.length h - 5) h.

(** The sidebar: create the list on first use, show its last five. *)
Definition sidebar (st : session_state) : session_state * list pystr :=
  let st :=
    match search_history st with
    | None => mk_session (Some [])
    | Some _ => st
    end in
  (st, last_five (history st)).

(** [q in h] *)
Definition mem (q : pystr) (h : list pystr) : bool :=
  existsb (PyStr.eqb q) h.

(** The block under [if search_button and query:] that records the
    query; an empty [query] is falsy. *)
Definition record_query (search_button : bool) (query : pystr)
           (st : session_state) : session_state :=
  if search_button && negb (PyStr.eqb query []) then
    if negb (mem query (history st)) then
      mk_session (Some (history st ++ [query]))
    else st
  else st.

(** One run of the script, with the inputs the widgets return. *)
Definition rerun (st : session_state) (input : bool * pystr)
  : session_state :=
  record_query (fst input) (snd input) (fst (sidebar st)).

(** A session starts empty and the script runs once per interaction. *)
Definition new_session : session_state := mk_session None.

Definition run_session (inputs : list (bool * pystr)) : session_state :=
  fold_left rerun inputs new_session.

(** Whether one run of the script appends its query. *)
Definition appends (st : session_state) (input : bool * pystr) : bool :=
  fst input && negb (PyStr.eqb (snd input) [])
  && negb (mem (snd input) (history st)).

(** A query was submitted: the button was pressed on a non-empty text. *)
Definition submitted (q : pystr) (inputs : list (bool * pystr)) : bool :=
  existsb (fun i => fst i && negb (PyStr.eqb (snd i) [])
                    && PyStr.eqb (snd i) q) inputs.

End Session.
Import Session.


(** ** Environments for the examples *)

Module Examples.

(** [str.title] on ASCII text: a letter that follows a letter is
    lowered, any other letter is raised. *)
Definition is_upper (c : N) : bool := ((65 <=? c) && (c <=? 90))%N.
Definition is_lower (c : N) : bool := ((97 <=? c) && (c <=? 122))%N.
Definition to_upper (c : N) : N := if is_lower c then (c - 32)%N else c.
Definition to_lower (c : N) : N := if is_upper c then (c + 32)%N else c.

Fixpoint title_from (previous_is_cased : bool) (s : pystr) : pystr :=
  match s with
  | [] => []
  | c :: s' =>
      (if previous_is_cased then to_lower c else to_upper c)
        :: title_from (is_upper c || is_lower c) s'
  end.

Definition title_ascii (s : pystr) : pystr := title_from false s.

(** A host that cannot be reached. *)
Definition get_unreachable (url : pystr) : result Response :=
  Raise (mk_exc ConnectionError
           (lit "HTTPConnectionPool(host='nowhere.invalid', port=80): Max retries exceeded with url: /")).

(** A server that answers every request with status 200 and [body]. *)
Definition get_page (body url : pystr) : result Response :=
  Return (mk_response 200 (lit "OK") url body).

(** A server that knows no page. *)
Definition get_not_found (url : pystr) : result Response :=
  Return (mk_response 404 (lit "Not Found") url (lit "<h1>Not Found</h1>")).

(** A converter given a page that holds text only, which it returns. *)
Definition convert_text (html : pystr) : result pystr := Return html.

(** The converter on a document without any text: nothing comes out. *)
Definition convert_blank (html : pystr) : result pystr := Return [].

(** A converter that fails. *)
Definition convert_fails (c : exc_class) (message html : pystr)
  : result pystr :=
  Raise (mk_exc c message).

(** The integer written with [k] ones: [(10**k - 1) // 9]. *)
Definition repunit (k : nat) : Z :=
  Z.of_int (Decimal.Pos (Nat.iter k Decimal.D1 Decimal.Nil)).

(** A float, and a [bytes] key. *)
Definition a_float (shown : pystr) : pyatom :=
  AOpaque (mk_object (lit "float") (Return shown) None).

Definition a_bytes (shown titled : pystr) : pyatom :=
  AOpaque (mk_object (lit "bytes") (Return shown) (Some (Return titled))).

End Examples.
Import Examples.

(** ** Further definitions *)

(** [400 <= status < 600]: the statuses [raise_for_status] raises for. *)
Definition is_error_status (status : Z) : bool :=
  ((400 <=? status) && (status <? 600))%Z.

(** The text of the [HTTPError] for such a status. *)
Definition http_error_text (r : Response) : pystr :=
  str_int (status_code r)
  ++ (if (status_code r <? 500)%Z then lit " Client Error: "
      else lit " Server Error: ")
  ++ reason r ++ lit " for url: " ++ resp_url r.

Definition nonspace (c : N) : bool := negb (isspace c).

(** A server that answers every request with one status and body. *)
Definition get_with_status (status : Z) (reason body url : pystr)
  : result Response :=
  Return (mk_response status reason url body).

(** [isinstance(a, str)] *)
Definition is_str (a : pyatom) : bool :=
  match a with
  | AStr _ => true
  | _ => false
  end.

(** The key is one of ["thoughts"], ["observations"], ["answer"]. *)
Definition is_recognized_key (k : pyatom) : bool :=
  existsb (fun nh => key_is (fst nh) k) recognized_keys.

(** What the formatter needs of a mapping to produce a document: string
    values under the recognized keys when it has one of them; when it
    has none, keys whose [title()] returns and values whose [str()]
    returns. *)
Definition formattable (items : list (pyatom * pyatom)) : bool :=
  if has_recognized items then recognized_are_str items
  else dumpable items.

(** The exception of the first call that raises in the per-key dump:
    [key.title()] comes before [str(value)], item after item. *)
Fixpoint first_refusal (str_title : pystr -> pystr)
         (items : list (pyatom * pyatom)) : option exc :=
  match items with
  | [] => None
  | (key, value) :: rest =>
      match title str_title key, str value with
      | Raise e, _ => Some e
      | Return _, Raise e => Some e
      | Return _, Return _ => first_refusal str_title rest
      end
  end.

(** The queries of the runs in which the button was pressed on a
    non-empty text, in the order of the runs. *)
Definition submissions (inputs : list (bool * pystr)) : list pystr :=
  map snd (filter (fun i => fst i && negb (PyStr.eqb (snd i) [])) inputs).

(** The entries of [qs] that are neither in [seen] nor earlier in [qs]. *)
Fixpoint first_occurrences (seen qs : list pystr) : list pystr :=
  match qs with
  | [] => []
  | q :: qs' =>
      if mem q seen then first_occurrences seen qs'
      else q :: first_occurrences (seen ++ [q]) qs'
  end.

(** [len(st.session_state.search_history)], the footer's "Searches today". *)
Definition searches_today (st : session_state) : nat :=
  List.length (history st).

(** ** The sources tab *)

(** [enumerate(l, start)] *)
Fixpoint enumerate {A : Type} (start : nat) (l : list A) : list (nat * A) :=
  match l with
  | [] => []
  | x :: l' => (start, x) :: enumerate (S start) l'
  end.

(** [f"Source {idx}: {source}"] *)
Definition expander_label (idx : nat) (source : pystr) : pystr :=
  lit "Source " ++ str_int (Z.of_nat idx) ++ lit ": " ++ source.

(** [f"Loading content from source {idx}..."] *)
Definition loading_text (idx : nat) : pystr :=
  lit "Loading content from source " ++ str_int (Z.of_nat idx) ++ lit "...".

(** [f"**URL:** [{source}]({source})"] *)
Definition url_line (source : pystr) : pystr :=
  lit "**URL:** [" ++ source ++ lit "](" ++ source ++ lit ")".

(** [f"source_{idx}.md"] *)
Definition source_file_name (idx : nat) : pystr :=
  lit "source_" ++ str_int (Z.of_nat idx) ++ lit ".md".

Definition preview_length : nat := 1000.

Definition truncation_notice : pystr :=
  lit "*Content truncated. Download the full source using the button above.*".

(** The texts the preview hands to [st.markdown]: the content, or its
    first [preview_length] characters with three dots and a notice. *)
Definition content_preview (content : pystr) : list pystr :=
  if Nat.ltb preview_length (List.length content) then
    [firstn preview_length content ++ lit "..."; truncation_notice]
  else [content].

(** ** The analysis tab *)

(** [s.split(sep)] for a non-empty [sep]: the pieces between the
    occurrences of [sep] found from left to right. [skip] counts the
    characters of the current occurrence still to step over, [piece] is
    the piece being collected. *)
Fixpoint split_from (sep s : pystr) (skip : nat) (piece : pystr)
  : list pystr :=
  match s with
  | [] => [piece]
  | c :: s' =>
      match skip with
      | S n => split_from sep s' n piece
      | O =>
          if startswith sep s
          then piece :: split_from sep s' (List.length sep - 1) []
          else split_from sep s' 0 (piece ++ [c])
      end
  end.

Definition split (sep s : pystr) : list pystr := split_from sep s 0 [].

(** [len(formatted_result.split("##")) - 1], the "Sections" metric. *)
Definition sections_metric (formatted_result : pystr) : nat :=
  List.length (split (lit "##") formatted_result) - 1.

Definition hash : N := 35.

Definition hash_free (s : pystr) : bool :=
  forallb (fun c => negb (N.eqb hash c)) s.

(** The occurrences of ["##"] a scan from left to right finds. *)
Fixpoint count_from (s : pystr) (skip : nat) : nat :=
  match s with
  | [] => 0
  | _ :: s' =>
      match skip with
      | S n => count_from s' n
      | O =>
          if startswith (lit "##") s then S (count_from s' 1)
          else count_from s' 0
      end
  end.

(** [s] does not end with a hash. *)
Definition closed (s : pystr) : bool := negb (N.eqb hash (last s 0%N)).

(** The texts rendered under the recognized keys. *)
Definition section_texts (items : list (pyatom * pyatom)) : list pystr :=
  flat_map (fun nh => match headed items nh with
                      | [_; s] => [s]
                      | _ => []
                      end) recognized_keys.

(** ** The page the script draws

    The [st.*] calls of the search block, in the order in which the
    script makes them. A [with] block is kept
    as a nesting: [Within c children] holds the calls made inside
    [with c:]. The state threaded through a run is the page drawn so
    far, the variable [sources] (unbound until line 169 assigns it), the
    process-wide cache of [st.cache_data] with the list of the pages
    that were really fetched, and the session. *)

Module UI.

Inductive container :=
| Spinner (text : pystr)
| Tab (label : pystr)
| Column (index : nat)
| Expander (label : pystr).

#[warnings="-register-all"]
Inductive element :=
| Markdown (body : pystr)
| Info (body : pystr)
| Error (body : pystr)
| Metric (label : pystr) (value : nat)
| DownloadButton (label data file_name mime : pystr)
| Tabs (labels : list pystr)
| Columns (widths : list nat)
| Within (c : container) (children : list element).

Record world := mk_world {
  page : list element;
  sources_var : option (list pystr);
  cache : list (pystr * pystr);
  fetched : list pystr;
  session : session_state
}.

Definition ui (A : Type) : Type := world -> result A * world.

Definition ret {A} (a : A) : ui A := fun w => (Return a, w).

Definition bind_ui {A B} (m : ui A) (k : A -> ui B) : ui B :=
  fun w =>
    match m w with
    | (Return a, w') => k a w'
    | (Raise e, w') => (Raise e, w')
    end.

(** A call that draws nothing. *)
Definition lift {A} (r : result A) : ui A := fun w => (r, w).

(** One [st.*] call. *)
Definition emit (e : element) : ui unit :=
  fun w => (Return tt,
            mk_world (page w ++ [e]) (sources_var w) (cache w) (fetched w)
                     (session w)).

(** [with c: body]; what was drawn inside stays when [body] raises. *)
Definition within {A} (c : container) (body : ui A) : ui A :=
  fun w =>
    let '(r, w') :=
      body (mk_world [] (sources_var w) (cache w) (fetched w) (session w)) in
    (r, mk_world (page w ++ [Within c (page w')]) (sources_var w')
                 (cache w') (fetched w') (session w')).

(** [try: body  except Exception as e: handler(e)] *)
Definition try_ui {A} (body : ui A) (handler : exc -> ui A) : ui A :=
  fun w =>
    match body w with
    | (Return a, w') => (Return a, w')
    | (Raise e, w') =>
        if isinstance e Exception then handler e w' else (Raise e, w')
    end.

(** [for x in l: body(x)] *)
Fixpoint for_each {A} (l : list A) (body : A -> ui unit) : ui unit :=
  match l with
  | [] => ret tt
  | x :: l' => bind_ui (body x) (fun _ => for_each l' body)
  end.

Definition set_sources (found : list pystr) : ui unit :=
  fun w => (Return tt,
            mk_world (page w) (Some found) (cache w) (fetched w) (session w)).

Definition update_session (f : session_state -> session_state) : ui unit :=
  fun w => (Return tt,
            mk_world (page w) (sources_var w) (cache w) (fetched w)
                     (f (session w))).

End UI.
Import UI.

Notation "x <~ m ;; k" := (bind_ui m (fun x => k))
  (at level 61, m at next level, right associativity) : py_scope.
Notation "m ;;; k" := (bind_ui m (fun _ => k))
  (at level 61, right associativity) : py_scope.

(** The emoji of the labels, by code point. *)
Definition emoji_memo : pystr := [128221%N].
Definition emoji_link : pystr := [128279%N].
Definition emoji_chart : pystr := [128202%N].
Definition emoji_inbox : pystr := [128229%N].
Definition emoji_books : pystr := [128218%N].
Definition emoji_trend : pystr := [128200%N].
Definition emoji_siren : pystr := [128680%N].
Definition emoji_detective : pystr := [128373; 65039; 8205; 9794; 65039]%N.

Definition tab_labels : list pystr :=
  [emoji_memo ++ lit " Results"; emoji_link ++ lit " Sources";
   emoji_chart ++ lit " Analysis"].

(** [f"🚨 An error occurred: {str(e)}"] *)
Definition error_banner (e : exc) : pystr :=
  emoji_siren ++ lit " An error occurred: " ++ exc_str e.

Definition retry_tips : pystr :=
  [nl] ++ lit "            Please try:" ++ [nl]
  ++ lit "            - Rephrasing your query" ++ [nl]
  ++ lit "            - Checking your internet connection" ++ [nl]
  ++ lit "            - Trying again in a few moments" ++ [nl]
  ++ lit "            ".

Definition cache_lookup (url : pystr) (c : list (pystr * pystr))
  : option pystr :=
  option_map snd (find (fun kv => PyStr.eqb (fst kv) url) c).

Section SearchBlock.

(** [manager_agent.run] and [json.dumps(_, indent=2)] are the agent
    library's and the standard library's. *)
Variable manager_agent_run : pystr -> result pyval.
Variable json_dumps : pyval -> result pystr.
Variable requests_get : pystr -> result Response.
Variable markdownify : pystr -> result pystr.
Variable str_title : pystr -> pystr.

(** [@st.cache_data fetch_webpage_content]: the value returned for a URL
    is kept and returned again without calling the function; a call
    that raises leaves nothing in the cache. *)
Definition fetch_webpage_content (url : pystr) : ui pystr :=
  fun w =>
    match cache_lookup url (cache w) with
    | Some content => (Return content, w)
    | None =>
        match visit_webpage requests_get markdownify url with
        | Return content =>
            (Return content,
             mk_world (page w) (sources_var w) ((url, content) :: cache w)
                      (fetched w ++ [url]) (session w))
        | Raise e =>
            (Raise e,
             mk_world (page w) (sources_var w) (cache w)
                      (fetched w ++ [url]) (session w))
        end
    end.

(** The body of [with st.expander(...)] for one source. *)
Definition source_panel (idx : nat) (source : pystr) : ui unit :=
  within (Expander (expander_label idx source))
    (within (Spinner (loading_text idx))
       (content <~ fetch_webpage_content source ;;
        emit (Columns [3; 1]) ;;;
        within (Column 1) (emit (Markdown (url_line source))) ;;;
        within (Column 2)
          (emit (DownloadButton (emoji_inbox ++ lit " Download Source")
                   content (source_file_name idx) (lit "text/markdown"))) ;;;
        emit (Markdown (lit "---")) ;;;
        emit (Markdown (lit "### Content Preview")) ;;;
        for_each (content_preview content) (fun t => emit (Markdown t)))).

Definition result_tab (raw_result : pyval) (formatted_result : pystr)
  : ui unit :=
  within (Tab (emoji_memo ++ lit " Results"))
    (emit (Markdown (lit "### " ++ emoji_chart ++ lit " Research Results")) ;;;
     emit (Markdown formatted_result) ;;;
     emit (Columns [1; 1]) ;;;
     within (Column 1)
       (emit (DownloadButton (emoji_inbox ++ lit " Download Results")
                formatted_result (lit "research_results.md")
                (lit "text/markdown"))) ;;;
     within (Column 2)
       (match raw_result with
        | Dict _ =>
            data <~ lift (json_dumps raw_result) ;;
            emit (DownloadButton (emoji_inbox ++ lit " Download Raw JSON")
                    data (lit "research_results.json")
                    (lit "application/json"))
        | Atom _ => ret tt
        end)).

Definition sources_tab (found : list pystr) : ui unit :=
  within (Tab (emoji_link ++ lit " Sources"))
    (emit (Markdown (lit "### " ++ emoji_books ++ lit " Sources Referenced")) ;;;
     match found with
     | [] =>
         emit (Info (lit "No external sources were referenced in this search."))
     | _ =>
         for_each (enumerate 1 found)
                  (fun p => source_panel (fst p) (snd p))
     end).

Definition analysis_tab (found : list pystr) (formatted_result : pystr)
  : ui unit :=
  within (Tab (emoji_chart ++ lit " Analysis"))
    (emit (Markdown (lit "### " ++ emoji_trend ++ lit " Content Analysis")) ;;;
     emit (Columns [1; 1; 1]) ;;;
     within (Column 1)
       (emit (Metric (lit "Sources Found") (List.length found))) ;;;
     within (Column 2)
       (emit (Metric (lit "Content Length") (List.length formatted_result))) ;;;
     within (Column 3)
       (emit (Metric (lit "Sections") (sections_metric formatted_result)))).

(** The statements under [try:] in the search block. *)
Definition search_try (query : pystr) : ui unit :=
  emit (Tabs tab_labels) ;;;
  raw_result <~ lift (manager_agent_run query) ;;
  formatted_result <~ lift (format_agent_response str_title raw_result) ;;
  set_sources (sources formatted_result) ;;;
  result_tab raw_result formatted_result ;;;
  sources_tab (sources formatted_result) ;;;
  analysis_tab (sources formatted_result) formatted_result.

(** [if search_button and query: ...] *)
Definition search_block (search_button : bool) (query : pystr) : ui unit :=
  if search_button && negb (PyStr.eqb query []) then
    update_session (record_query search_button query) ;;;
    within (Spinner (emoji_detective ++ lit " Researching..."))
      (try_ui (search_try query)
         (fun e =>
            emit (Error (error_banner e)) ;;;
            emit (Markdown retry_tips)))
  else ret tt.

End SearchBlock.

(** The drawn elements, at any depth, that are error banners. *)
Fixpoint banners (e : element) : list pystr :=
  match e with
  | Error body => [body]
  | Within _ children => flat_map banners children
  | _ => []
  end.

(** An agent that answers every query with [answer]. *)
Definition agent_answers (answer : pyval) (query : pystr) : result pyval :=
  Return answer.

(** An agent that fails. *)
Definition agent_fails (c : exc_class) (message query : pystr)
  : result pyval :=
  Raise (mk_exc c message).

(** A serializer for the examples; its output stands for the JSON text. *)
Definition dumps_stub (v : pyval) : result pystr := Return (lit "{}").

Definition empty_world : world := mk_world [] None [] [] new_session.

(** The labels of the expanders drawn, at any depth. *)
Fixpoint expander_labels (e : element) : list pystr :=
  match e with
  | Within (Expander label) children =>
      label :: flat_map expander_labels children
  | Within _ children => flat_map expander_labels children
  | _ => []
  end.

(** What the panel of one source holds, given the content fetched. *)
Definition panel_elements (idx : nat) (source content : pystr) : element :=
  Within (Expander (expander_label idx source))
    [Within (Spinner (loading_text idx))
       ([Columns [3; 1];
         Within (Column 1) [Markdown (url_line source)];
         Within (Column 2)
           [DownloadButton (emoji_inbox ++ lit " Download Source")
              content (source_file_name idx) (lit "text/markdown")];
         Markdown (lit "---");
         Markdown (lit "### Content Preview")]
        ++ map Markdown (content_preview content))].

(** What the results tab holds, given the JSON text when one is offered. *)
Definition result_elements (formatted_result : pystr) (json : option pystr)
  : element :=
  Within (Tab (emoji_memo ++ lit " Results"))
    [Markdown (lit "### " ++ emoji_chart ++ lit " Research Results");
     Markdown formatted_result;
     Columns [1; 1];
     Within (Column 1)
       [DownloadButton (emoji_inbox ++ lit " Download Results")
          formatted_result (lit "research_results.md") (lit "text/markdown")];
     Within (Column 2)
       (match json with
        | Some data =>
            [DownloadButton (emoji_inbox ++ lit " Download Raw JSON")
               data (lit "research_results.json") (lit "application/json")]
        | None => []
        end)].

(** What the analysis tab holds. *)
Definition analysis_elements (found : list pystr) (formatted_result : pystr)
  : element :=
  Within (Tab (emoji_chart ++ lit " Analysis"))
    [Markdown (lit "### " ++ emoji_trend ++ lit " Content Analysis");
     Columns [1; 1; 1];
     Within (Column 1) [Metric (lit "Sources Found") (List.length found)];
     Within (Column 2)
       [Metric (lit "Content Length") (List.length formatted_result)];
     Within (Column 3)
       [Metric (lit "Sections") (sections_metric formatted_result)]].

(** The state in which the body of a [with] block starts. *)
Definition blank (w : world) : world :=
  mk_world [] (sources_var w) (cache w) (fetched w) (session w).

(** [w] with [l] drawn after what its page holds. *)
Definition draw (l : list element) (w : world) : world :=
  mk_world (page w ++ l) (sources_var w) (cache w) (fetched w) (session w).

(** A part of the script that only draws, and draws [l]. *)
Definition draws (m : ui unit) (l : list element) : Prop :=
  forall w, m w = (Return tt, draw l w).

(** * Properties *)

(** ** Strings *)

Lemma pystr_eqb_eq (a b : pystr) : PyStr.eqb a b = true <-> a = b.
Proof.
  revert b; induction a as [|x a IH]; intros [|y b]; simpl;
    try (split; [discriminate | discriminate]); try tauto.
  rewrite andb_true_iff, N.eqb_eq, IH.
  split; [intros [-> ->]; reflexivity | intros H; inversion H; auto].
Qed.

Lemma pystr_eqb_refl (a : pystr) : PyStr.eqb a a = true.
Proof. apply pystr_eqb_eq; reflexivity. Qed.

Lemma pystr_eqb_neq (a b : pystr) : PyStr.eqb a b = false <-> a <> b.
Proof.
  rewrite <- pystr_eqb_eq. destruct (PyStr.eqb a b); split; congruence.
Qed.

Lemma startswith_app (p s : pystr) : startswith p (p ++ s) = true.
Proof.
  induction p as [|x p IH]; simpl; [reflexivity|].
  now rewrite N.eqb_refl, IH.
Qed.

Lemma contains_here (p s : pystr) : startswith p s = true -> contains p s = true.
Proof. intros H; destruct s; simpl in *; rewrite H; reflexivity. Qed.

Lemma contains_app_r (p a s : pystr) :
  contains p s = true -> contains p (a ++ s) = true.
Proof.
  intros H; induction a as [|x a IH]; simpl; [exact H|].
  rewrite IH; apply orb_true_r.
Qed.

Lemma take_drop_while (p : N -> bool) (s : pystr) :
  take_while p s ++ drop_while p s = s.
Proof.
  induction s as [|c s IH]; simpl; [reflexivity|].
  destruct (p c); simpl; [now rewrite IH | reflexivity].
Qed.

Lemma breaks_drop_while (p : N -> bool) (s : pystr) :
  breaks p (drop_while p s) = true.
Proof.
  induction s as [|c s IH]; simpl; [reflexivity|].
  destruct (p c) eqn:E; simpl; [exact IH | now rewrite E].
Qed.

Lemma drop_while_app (p : N -> bool) (t rest : pystr) :
  forallb p t = true -> breaks p rest = true ->
  drop_while p (t ++ rest) = rest.
Proof.
  intros Ht Hr; induction t as [|c t IH]; simpl in *.
  - destruct rest as [|c r]; simpl in *; [reflexivity|].
    now destruct (p c).
  - apply andb_true_iff in Ht as [-> Ht]. now apply IH.
Qed.

Lemma take_while_app (p : N -> bool) (t rest : pystr) :
  forallb p t = true -> breaks p rest = true ->
  take_while p (t ++ rest) = t.
Proof.
  intros Ht Hr; induction t as [|c t IH]; simpl in *.
  - destruct rest as [|c r]; simpl in *; [reflexivity|].
    now destruct (p c).
  - apply andb_true_iff in Ht as [-> Ht]. now rewrite IH.
Qed.

(** ** Matching *)

Module ReFacts.

(** With an accepting continuation and nothing more required, the loop
    over a class eats the longest run of its characters. The step only
    has to behave as the class does on accepting continuations. *)
Lemma rep_loop_rest (step : pystr -> (pystr -> option pystr) -> option pystr)
      (p : N -> bool) (k : pystr -> option pystr) :
  (forall s k', accepting k' -> step s k' = run (Cls p) s k') ->
  accepting k ->
  forall fuel s, List.length s <= fuel ->
    rep_loop step k fuel 0 s = k (drop_while p s).
Proof.
  intros Hstep Hk.
  assert (Hacc : forall fuel, accepting (rep_loop step k fuel 0)).
  { intros [|fuel] x; simpl; [apply Hk|].
    destruct (step x _); [discriminate | apply Hk]. }
  induction fuel as [|fuel IH]; intros s Hlen.
  - destruct s; [reflexivity | simpl in Hlen; lia].
  - simpl. rewrite Hstep by apply Hacc.
    destruct s as [|c s]; simpl; [reflexivity|].
    destruct (p c); [|reflexivity].
    simpl in Hlen. rewrite IH by lia.
    destruct (k (drop_while p s)) eqn:E; [reflexivity|].
    now apply Hk in E.
Qed.

(** The loop over a class itself, with [need] rounds required. *)
Lemma rep_loop_class (p : N -> bool) (k : pystr -> option pystr) :
  accepting k ->
  forall fuel need s, List.length s <= fuel ->
    rep_loop (run (Cls p)) k fuel need s
    = if Nat.leb need (List.length (take_while p s))
      then k (drop_while p s) else None.
Proof.
  intros Hk. induction fuel as [|fuel IH]; intros need s Hlen.
  - destruct s; [|simpl in Hlen; lia]. simpl.
    now destruct need.
  - simpl. destruct s as [|c s]; simpl.
    + now destruct need.
    + destruct (p c) eqn:E; simpl.
      * simpl in Hlen. rewrite IH by lia.
        destruct need as [|need]; simpl.
        -- destruct (k (drop_while p s)) eqn:K; [reflexivity|].
           now apply Hk in K.
        -- destruct (Nat.leb need _); [|reflexivity].
           destruct (k (drop_while p s)) eqn:K; [reflexivity|].
           now apply Hk in K.
      * now destruct need.
Qed.

Lemma accepting_Some : accepting Some.
Proof. intros x; discriminate. Qed.

(** [\n{3,}] at the start of [s]. *)
Lemma match_newline_runs (s : pystr) :
  match_at newline_runs s
  = if Nat.leb 3 (List.length (take_while is_nl s))
    then Some (drop_while is_nl s) else None.
Proof.
  unfold match_at, newline_runs; simpl run.
  apply (rep_loop_class is_nl Some accepting_Some); lia.
Qed.

Lemma matched_app (m rest : pystr) : matched (m ++ rest) rest = m.
Proof.
  unfold matched. rewrite length_app, Nat.add_sub.
  induction m as [|c m IH]; simpl; [now destruct rest | now rewrite IH].
Qed.

Lemma sub_from_skip (r : regex) (repl m s : pystr) :
  sub_from r repl (m ++ s) (List.length m) = sub_from r repl s 0.
Proof. induction m as [|c m IH]; simpl; [reflexivity | exact IH]. Qed.

Lemma findall_from_skip (r : regex) (m s : pystr) :
  findall_from r (m ++ s) (List.length m) = findall_from r s 0.
Proof. induction m as [|c m IH]; simpl; [reflexivity | exact IH]. Qed.

(** Where the pattern does not match, [re.sub] copies a character. *)
Lemma sub_no_match (r : regex) (repl : pystr) (c : N) (s : pystr) :
  match_at r (c :: s) = None ->
  Re.sub r repl (c :: s) = c :: Re.sub r repl s.
Proof. unfold Re.sub; simpl; now intros ->. Qed.

(** Where it matches, the match is replaced and the scan goes on
    behind it. *)
Lemma sub_match (r : regex) (repl : pystr) (c : N) (m rest : pystr) :
  match_at r (c :: m ++ rest) = Some rest ->
  Re.sub r repl (c :: m ++ rest) = repl ++ Re.sub r repl rest.
Proof.
  unfold Re.sub; intros H.
  change (sub_from r repl (c :: m ++ rest) 0)
    with (match match_at r (c :: m ++ rest) with
          | Some rest' =>
              match matched ((c :: m) ++ rest) rest' with
              | [] => c :: sub_from r repl (m ++ rest) 0
              | x :: l => repl ++ sub_from r repl (m ++ rest)
                                    (List.length (x :: l) - 1)
              end
          | None => c :: sub_from r repl (m ++ rest) 0
          end).
  rewrite H, matched_app.
  replace (List.length (c :: m) - 1) with (List.length m) by (simpl; lia).
  now rewrite sub_from_skip.
Qed.

Lemma findall_no_match (r : regex) (c : N) (s : pystr) :
  match_at r (c :: s) = None -> findall r (c :: s) = findall r s.
Proof. unfold findall; simpl; now intros ->. Qed.

Lemma findall_match (r : regex) (c : N) (m rest : pystr) :
  match_at r (c :: m ++ rest) = Some rest ->
  findall r (c :: m ++ rest) = (c :: m) :: findall r rest.
Proof.
  unfold findall; intros H.
  change (findall_from r (c :: m ++ rest) 0)
    with (match match_at r (c :: m ++ rest) with
          | Some rest' =>
              match matched ((c :: m) ++ rest) rest' with
              | [] => findall_from r (m ++ rest) 0
              | x :: l => (x :: l) :: findall_from r (m ++ rest)
                                        (List.length (x :: l) - 1)
              end
          | None => findall_from r (m ++ rest) 0
          end).
  rewrite H, matched_app.
  replace (List.length (c :: m) - 1) with (List.length m) by (simpl; lia).
  now rewrite findall_from_skip.
Qed.

End ReFacts.
Import ReFacts.

(** ** Newline runs *)

Lemma is_nl_eq (c : N) : is_nl c = true -> c = nl.
Proof. unfold is_nl; intros H; apply N.eqb_eq in H; now subst. Qed.

(** A run of newlines met after [seen] of them were copied: what is
    still missing to two is copied, the rest is dropped. *)
Lemma collapse_from_run (t rest : pystr) :
  forallb is_nl t = true -> breaks is_nl rest = true ->
  forall seen,
    collapse_from seen (t ++ rest) = firstn (2 - seen) t ++ collapse rest.
Proof.
  intros Ht Hr. induction t as [|c t IH]; intros seen; simpl in *.
  - rewrite firstn_nil; simpl. unfold collapse.
    destruct rest as [|c r]; simpl in *; [reflexivity|].
    now destruct (is_nl c).
  - apply andb_true_iff in Ht as [Hc Ht]. rewrite Hc.
    destruct seen as [|[|seen]]; simpl; rewrite (IH Ht); reflexivity.
Qed.

Lemma forallb_take_while (p : N -> bool) (s : pystr) :
  forallb p (take_while p s) = true.
Proof.
  induction s as [|c s IH]; simpl; [reflexivity|].
  destruct (p c) eqn:E; simpl; [now rewrite E | reflexivity].
Qed.

(** [re.sub(r"\n{3,}", "\n\n", s)] cuts every run of three or more
    newlines down to two and copies everything else. *)
Lemma sub_newline_runs_collapse (s : pystr) :
  Re.sub newline_runs [nl; nl] s = collapse s.
Proof.
  remember (List.length s) as n eqn:Hn. revert s Hn.
  induction n as [n IH] using lt_wf_ind; intros s Hn.
  destruct s as [|c s]; [reflexivity|].
  pose proof (match_newline_runs (c :: s)) as M. simpl take_while in M.
  destruct (is_nl c) eqn:Ec.
  - pose proof (take_drop_while is_nl s) as Es.
    pose proof (forallb_take_while is_nl s) as Ft.
    pose proof (breaks_drop_while is_nl s) as Bd.
    simpl drop_while in M. rewrite Ec in M.
    assert (Ecol : collapse (c :: s)
                   = firstn 2 (c :: take_while is_nl s)
                     ++ collapse (drop_while is_nl s)).
    { rewrite <- Es at 1.
      apply (collapse_from_run (c :: take_while is_nl s) (drop_while is_nl s));
        [simpl; now rewrite Ec | exact Bd]. }
    rewrite Ecol.
    destruct (Nat.leb 3 (List.length (c :: take_while is_nl s))) eqn:L.
    + rewrite <- Es in M at 1.
      replace (Re.sub newline_runs [nl; nl] (c :: s))
        with (Re.sub newline_runs [nl; nl]
                (c :: take_while is_nl s ++ drop_while is_nl s))
        by now rewrite Es.
      rewrite (sub_match _ _ _ _ _ M).
      rewrite (IH (List.length (drop_while is_nl s))); [| |reflexivity].
      * apply is_nl_eq in Ec; subst c.
        destruct (take_while is_nl s) as [|x tw]; [discriminate|].
        simpl in Ft. apply andb_true_iff in Ft as [Hx _].
        apply is_nl_eq in Hx; now subst x.
      * subst n. rewrite <- Es at 2. simpl. rewrite length_app. lia.
    + rewrite (sub_no_match _ _ _ _ M).
      rewrite (IH (List.length s)); [| subst n; simpl; lia | reflexivity].
      change (firstn 2 (c :: take_while is_nl s))
        with (c :: firstn 1 (take_while is_nl s)).
      simpl app. f_equal. unfold collapse at 1. rewrite <- Es at 1.
      rewrite (collapse_from_run _ _ Ft Bd 0).
      destruct (take_while is_nl s) as [|x [|y tw]]; try reflexivity.
      discriminate.
  - simpl drop_while in M. rewrite Ec in M. simpl in M.
    rewrite (sub_no_match _ _ _ _ M).
    rewrite (IH (List.length s)); [| subst n; simpl; lia | reflexivity].
    unfold collapse; simpl. now rewrite Ec.
Qed.

(** ** The search history *)

Module SessionFacts.

Lemma mem_In (q : pystr) (h : list pystr) : mem q h = true <-> In q h.
Proof.
  unfold mem; rewrite existsb_exists; split.
  - intros [x [Hx E]]. apply pystr_eqb_eq in E; subst; exact Hx.
  - intros H; exists q; split; [exact H | apply pystr_eqb_refl].
Qed.

Lemma history_rerun (st : session_state) (input : bool * pystr) :
  history (rerun st input)
  = if appends st input then history st ++ [snd input] else history st.
Proof.
  destruct st as [[h|]], input as [b q];
    unfold rerun, record_query, appends, sidebar, history; simpl;
    destruct b; simpl; try reflexivity;
    destruct (PyStr.eqb q []); simpl; try reflexivity.
  destruct (mem q h); reflexivity.
Qed.

Lemma rerun_NoDup (st : session_state) (input : bool * pystr) :
  NoDup (history st) -> NoDup (history (rerun st input)).
Proof.
  intros H; rewrite history_rerun; unfold appends.
  destruct (mem (snd input) (history st)) eqn:M;
    rewrite ?andb_false_r; simpl; [exact H|].
  destruct (fst input && negb (PyStr.eqb (snd input) [])); [|exact H].
  simpl. apply NoDup_app; [exact H | repeat constructor; intros [] | ].
  intros x Hx [<-|[]].
  apply mem_In in Hx; congruence.
Qed.

Lemma fold_rerun_NoDup (inputs : list (bool * pystr)) (st : session_state) :
  NoDup (history st) -> NoDup (history (fold_left rerun inputs st)).
Proof.
  revert st; induction inputs as [|i inputs IH]; intros st H; simpl;
    [exact H | apply IH, rerun_NoDup, H].
Qed.

Lemma In_rerun (st : session_state) (input : bool * pystr) (q : pystr) :
  In q (history (rerun st input))
  <-> In q (history st)
      \/ (fst input && negb (PyStr.eqb (snd input) [])
          && PyStr.eqb (snd input) q = true).
Proof.
  rewrite history_rerun; unfold appends.
  destruct input as [b x]; simpl.
  destruct b; simpl; [|intuition discriminate].
  destruct (PyStr.eqb x []); simpl; [intuition discriminate|].
  destruct (mem x (history st)) eqn:M; simpl.
  - rewrite pystr_eqb_eq. split; [auto|].
    intros [H| <-]; [exact H | apply mem_In, M].
  - rewrite in_app_iff, pystr_eqb_eq; simpl. intuition.
Qed.

Lemma In_fold_rerun (inputs : list (bool * pystr)) (st : session_state)
      (q : pystr) :
  In q (history (fold_left rerun inputs st))
  <-> In q (history st) \/ submitted q inputs = true.
Proof.
  revert st; induction inputs as [|i inputs IH]; intros st; simpl.
  - intuition discriminate.
  - rewrite IH, In_rerun, orb_true_iff. tauto.
Qed.

End SessionFacts.
Import SessionFacts.

(** C6. Whatever the sequence of interactions, the search history holds
    no query twice: a query that was submitted occurs in it exactly
    once, however often it was submitted, and any other query does not
    occur. *)
Theorem search_history_no_duplicates (inputs : list (bool * pystr)) :
  NoDup (history (run_session inputs))
  /\ forall q : pystr,
       count_occ pystr_eq_dec (history (run_session inputs)) q
       = if submitted q inputs then 1 else 0.
Proof.
  assert (D : NoDup (history (run_session inputs)))
    by (apply fold_rerun_NoDup; constructor).
  split; [exact D|]. intros q.
  pose proof (In_fold_rerun inputs new_session q) as HI.
  fold (run_session inputs) in HI.
  destruct (submitted q inputs).
  - apply NoDup_count_occ' with (decA := pystr_eq_dec); [exact D|].
    apply HI; right; reflexivity.
  - apply count_occ_not_In. intros H. apply HI in H.
    destruct H as [[]|H]; discriminate.
Qed.

(** C10. Submitting a query the history already holds changes nothing:
    the session is the one it was, so the list has the same elements in
    the same order and the five entries the sidebar shows are the same. *)
Theorem resubmit_leaves_history_unchanged
        (st : session_state) (search_button : bool) (query : pystr) :
  In query (history st) ->
  rerun st (search_button, query) = st
  /\ history (rerun st (search_button, query)) = history st
  /\ snd (sidebar (rerun st (search_button, query))) = snd (sidebar st).
Proof.
  intros H.
  assert (E : rerun st (search_button, query) = st).
  { destruct st as [[h|]]; [|destruct H].
    unfold rerun, record_query, sidebar, history in *; simpl in *.
    apply mem_In in H; rewrite H; simpl.
    now destruct (search_button && _). }
  now rewrite E.
Qed.

Lemma resubmit_leaves_history_unchanged_witness :
  let st := mk_session (Some [lit "rust"; lit "ocaml"; lit "coq"]) in
  rerun st (true, lit "rust") = st
  /\ history (rerun st (true, lit "rust")) = history st
  /\ snd (sidebar (rerun st (true, lit "rust"))) = snd (sidebar st).
Proof.
  apply (@resubmit_leaves_history_unchanged
           (mk_session (Some [lit "rust"; lit "ocaml"; lit "coq"]))
           true (lit "rust")).
  simpl. left. reflexivity.
Defined.

(** ** Failures of [visit_webpage] *)

Section FetchFailures.

Variable requests_get : pystr -> result Response.
Variable markdownify : pystr -> result pystr.

Local Notation "'visit'" := (visit_webpage requests_get markdownify).
Local Notation "'attempt'" := (visit_webpage_try requests_get markdownify).

Lemma request_exception_is_exception (e : exc) :
  isinstance e RequestException = true -> isinstance e Exception = true.
Proof. destruct e as [[] m]; simpl; intros H; (reflexivity || discriminate). Qed.

Lemma visit_request_exception (url : pystr) (e : exc) :
  attempt url = Raise e -> isinstance e RequestException = true ->
  visit url = Return (lit "Error fetching the webpage: " ++ exc_str e).
Proof.
  unfold visit_webpage; intros -> H; simpl.
  now rewrite H.
Qed.

Lemma visit_other_exception (url : pystr) (e : exc) :
  attempt url = Raise e -> isinstance e RequestException = false ->
  isinstance e Exception = true ->
  visit url = Return (lit "An unexpected error occurred: " ++ exc_str e).
Proof.
  unfold visit_webpage; intros -> H1 H2; simpl.
  now rewrite H1, H2.
Qed.

Lemma attempt_get_raises (url : pystr) (e : exc) :
  requests_get url = Raise e -> attempt url = Raise e.
Proof.
  unfold visit_webpage_try; now intros ->.
Qed.

(** C2. When whatever goes wrong inside the [try] block is an
    [Exception] (a network error, an HTTP error status, anything
    unexpected), [visit_webpage] does not raise but returns a string;
    and when [requests.get] itself fails with a [RequestException], as
    it does for an unreachable URL, that string contains
    ["Error fetching the webpage"]. *)
Theorem visit_webpage_returns_error_text (url : pystr) :
  (forall e, attempt url = Raise e -> isinstance e Exception = true) ->
  (exists s, visit url = Return s)
  /\ (forall e, requests_get url = Raise e ->
                isinstance e RequestException = true ->
                exists s, visit url = Return s
                          /\ contains fetch_error_prefix s = true).
Proof.
  intros Hexc; split.
  - destruct (attempt url) as [s|e] eqn:A.
    + exists s. unfold visit_webpage. now rewrite A.
    + destruct (isinstance e RequestException) eqn:R.
      * eexists; apply (visit_request_exception url e A R).
      * eexists; apply (visit_other_exception url e A R (Hexc e eq_refl)).
  - intros e G R. eexists; split.
    + apply (visit_request_exception url e (attempt_get_raises url e G) R).
    + apply contains_here.
      change (lit "Error fetching the webpage: ")
        with (fetch_error_prefix ++ lit ": ").
      rewrite <- app_assoc. apply startswith_app.
Qed.

(** C8, as amended. An [Exception] raised inside the [try] block that
    is not a [RequestException] yields
    ["An unexpected error occurred: "] followed by [str(e)]. That
    string begins with ["An unexpected error occurred:"] and does not
    begin with ["Error fetching the webpage"], so the two kinds of
    failure differ in their prefix; the words
    ["Error fetching the webpage"] occur in it exactly when they occur
    in [str(e)]. *)
Theorem unexpected_error_prefix (url : pystr) (e : exc) :
  attempt url = Raise e ->
  isinstance e Exception = true ->
  isinstance e RequestException = false ->
  visit url = Return (lit "An unexpected error occurred: " ++ exc_str e)
  /\ startswith unexpected_prefix
       (lit "An unexpected error occurred: " ++ exc_str e) = true
  /\ startswith fetch_error_prefix
       (lit "An unexpected error occurred: " ++ exc_str e) = false
  /\ contains fetch_error_prefix
       (lit "An unexpected error occurred: " ++ exc_str e)
     = contains fetch_error_prefix (exc_str e).
Proof.
  intros A E R. split; [apply (visit_other_exception url e A R E)|].
  repeat split; reflexivity.
Qed.

End FetchFailures.

Lemma visit_webpage_returns_error_text_witness :
  (exists s, visit_webpage get_unreachable convert_text
               (lit "http://nowhere.invalid/") = Return s)
  /\ (forall e, get_unreachable (lit "http://nowhere.invalid/") = Raise e ->
                isinstance e RequestException = true ->
                exists s, visit_webpage get_unreachable convert_text
                            (lit "http://nowhere.invalid/") = Return s
                          /\ contains fetch_error_prefix s = true).
Proof.
  apply (visit_webpage_returns_error_text get_unreachable convert_text
           (lit "http://nowhere.invalid/")).
  intros e H; inversion H; reflexivity.
Defined.

(** A status of the 400s is an [HTTPError], hence a fetch error. *)
Example visit_webpage_not_found :
  visit_webpage get_not_found convert_text (lit "http://a.example/x")
  = Return (lit "Error fetching the webpage: 404 Client Error: Not Found for url: http://a.example/x").
Proof. reflexivity. Qed.

(** C8 as it was stated does not hold: when the converter fails with a
    [RuntimeError] whose text is ["Error fetching the webpage"], the
    string returned starts with ["An unexpected error occurred:"] and
    yet contains ["Error fetching the webpage"]. *)
Lemma unexpected_error_can_mention_fetch_error :
  let e := mk_exc RuntimeError (lit "Error fetching the webpage") in
  let run := visit_webpage (get_page (lit "<p>x</p>"))
               (convert_fails RuntimeError (lit "Error fetching the webpage")) in
  visit_webpage_try (get_page (lit "<p>x</p>"))
    (convert_fails RuntimeError (lit "Error fetching the webpage"))
    (lit "http://a.example/") = Raise e
  /\ isinstance e Exception = true
  /\ isinstance e RequestException = false
  /\ exists s, run (lit "http://a.example/") = Return s
               /\ startswith unexpected_prefix s = true
               /\ contains fetch_error_prefix s = true.
Proof.
  repeat split. eexists; repeat split.
Qed.

Lemma unexpected_error_prefix_witness :
  let e := mk_exc RecursionError (lit "maximum recursion depth exceeded") in
  let run := visit_webpage (get_page (lit "<p>x</p>"))
               (convert_fails RecursionError
                  (lit "maximum recursion depth exceeded")) in
  run (lit "http://a.example/")
  = Return (lit "An unexpected error occurred: maximum recursion depth exceeded")
  /\ contains fetch_error_prefix
       (lit "An unexpected error occurred: " ++ exc_str e) = false.
Proof.
  destruct (unexpected_error_prefix (get_page (lit "<p>x</p>"))
              (convert_fails RecursionError
                 (lit "maximum recursion depth exceeded"))
              (lit "http://a.example/")
              (mk_exc RecursionError (lit "maximum recursion depth exceeded"))
              eq_refl eq_refl eq_refl) as [H1 [_ [_ H4]]].
  split; [exact H1 | rewrite H4; reflexivity].
Defined.

(** ** The formatter *)

Section FormatterFacts.

Variable str_title : pystr -> pystr.

Local Notation "'format'" := (format_agent_response str_title).

Lemma dict_contains_find (items : list (pyatom * pyatom)) (name : pystr) :
  dict_contains items name
  = match find (fun kv => key_is name (fst kv)) items with
    | Some _ => true
    | None => false
    end.
Proof.
  unfold dict_contains; induction items as [|kv items IH]; simpl;
    [reflexivity|].
  destruct (key_is name (fst kv)); simpl; [reflexivity | exact IH].
Qed.

Lemma section_for_atoms (items : list (pyatom * pyatom))
      (name header : pystr) (parts : list pyatom) :
  section_for items name header parts
  = Return (parts ++ section_atoms items (name, header)).
Proof.
  unfold section_for, section_atoms, dict_getitem; simpl.
  rewrite dict_contains_find.
  destruct (find _ items) as [kv|]; simpl.
  - now rewrite <- app_assoc.
  - now rewrite app_nil_r.
Qed.

Lemma join_from_strs (sep : pystr) (l : list pystr) (i : nat) :
  join_from i sep (map AStr l) = Return (join_strs sep l).
Proof.
  revert i; induction l as [|s l IH]; intros i; simpl; [reflexivity|].
  rewrite IH; simpl. destruct l; reflexivity.
Qed.

Lemma join_strs_snoc2 (sep : pystr) (l : list pystr) (a b : pystr) :
  exists before, join_strs sep (l ++ [a; b]) = before ++ a ++ sep ++ b.
Proof.
  induction l as [|s l [before IH]].
  - exists []; reflexivity.
  - exists (s ++ sep ++ before).
    change ((s :: l) ++ [a; b]) with (s :: (l ++ [a; b])).
    destruct (l ++ [a; b]) as [|x r] eqn:E.
    + destruct l; discriminate.
    + change (join_strs sep (s :: x :: r))
        with (s ++ sep ++ join_strs sep (x :: r)).
      rewrite IH, <- !app_assoc. reflexivity.
Qed.

Lemma section_atoms_headed (items : list (pyatom * pyatom))
      (nh : pystr * pystr) :
  str_valued items (fst nh) = true ->
  section_atoms items nh = map AStr (headed items nh).
Proof.
  unfold str_valued, section_atoms, headed.
  destruct (find _ items) as [[k [| | |s|]]|]; simpl;
    intros H; try discriminate; reflexivity.
Qed.

Lemma has_title_returns (k : pyatom) :
  has_title k = true -> exists t, title str_title k = Return t.
Proof.
  destruct k as [| | |s|o]; simpl; try discriminate.
  - intros _; now exists (str_title s).
  - destruct (obj_title o) as [[t|e]|]; try discriminate.
    intros _; now exists t.
Qed.

Lemma returns_Return (A : Type) (r : result A) :
  returns r = true -> exists a, r = Return a.
Proof. destruct r as [a|e]; [now exists a | discriminate]. Qed.

Lemma dump_items_strs (items : list (pyatom * pyatom)) (acc : list pystr) :
  dumpable items = true ->
  dump_items str_title items (map AStr acc)
  = Return (map AStr
              (acc ++ flat_map
                        (fun kv =>
                           [lit "### " ++ text_of (title str_title (fst kv));
                            text_of (str (snd kv))]) items)).
Proof.
  revert acc; induction items as [|[k v] items IH]; intros acc H.
  - simpl. now rewrite app_nil_r.
  - cbn [dumpable forallb fst snd] in H.
    apply andb_true_iff in H as [Hkv H].
    apply andb_true_iff in Hkv as [Hk Hv].
    apply has_title_returns in Hk as [t Hk].
    apply returns_Return in Hv as [x Hv].
    cbn [dump_items flat_map fst snd]. rewrite Hk, Hv. cbn [bind text_of].
    rewrite <- !map_last, IH by exact H.
    now rewrite <- !app_assoc.
Qed.

(** What the three [if] blocks leave in [formatted_parts]. *)
Lemma format_dict (items : list (pyatom * pyatom)) :
  format (Dict items)
  = (parts <- match flat_map (section_atoms items) recognized_keys with
              | [] => dump_items str_title items [AStr (lit "## Results")]
              | p => Return p
              end ;;
     join [nl; nl] parts).
Proof.
  unfold format_agent_response.
  rewrite !section_for_atoms; simpl bind.
  rewrite !section_for_atoms; simpl bind.
  rewrite !section_for_atoms; simpl bind.
  unfold recognized_keys, flat_map. rewrite app_nil_r, <- !app_assoc.
  now destruct (_ ++ _).
Qed.

Lemma no_sections (items : list (pyatom * pyatom)) :
  has_recognized items = false ->
  flat_map (section_atoms items) recognized_keys = [].
Proof.
  unfold has_recognized, recognized_keys; simpl.
  rewrite !dict_contains_find. unfold section_atoms; simpl.
  now destruct (find _ items), (find _ items), (find _ items).
Qed.

Lemma some_section (items : list (pyatom * pyatom)) :
  has_recognized items = true ->
  flat_map (section_atoms items) recognized_keys <> [].
Proof.
  unfold has_recognized, recognized_keys; simpl.
  rewrite !dict_contains_find. unfold section_atoms; simpl.
  destruct (find _ items); [discriminate|].
  destruct (find _ items); [discriminate|].
  destruct (find _ items); [discriminate|]. discriminate.
Qed.

Lemma sections_headed (items : list (pyatom * pyatom)) :
  recognized_are_str items = true ->
  flat_map (section_atoms items) recognized_keys
  = map AStr (flat_map (headed items) recognized_keys).
Proof.
  unfold recognized_are_str, recognized_keys; simpl.
  rewrite !andb_true_iff; intros [H1 [H2 [H3 _]]].
  rewrite !map_app, !app_nil_r.
  now rewrite <- !section_atoms_headed by assumption.
Qed.

Lemma format_recognized (items : list (pyatom * pyatom)) :
  has_recognized items = true -> recognized_are_str items = true ->
  format (Dict items) = Return (fixed_order_document items).
Proof.
  intros Hr Hs. rewrite format_dict.
  pose proof (some_section items Hr) as Hne.
  destruct (flat_map (section_atoms items) recognized_keys) as [|p ps] eqn:E;
    [congruence|].
  simpl bind. rewrite <- E, sections_headed by exact Hs.
  apply join_from_strs.
Qed.

Lemma format_unrecognized (items : list (pyatom * pyatom)) :
  has_recognized items = false -> dumpable items = true ->
  format (Dict items) = Return (results_document str_title items).
Proof.
  intros Hr Hk. rewrite format_dict, no_sections by exact Hr.
  change [AStr (lit "## Results")] with (map AStr [lit "## Results"]).
  rewrite dump_items_strs by exact Hk.
  exact (join_from_strs [nl; nl] (_ :: _) 0).
Qed.

Lemma key_is_eq (name : pystr) (k : pyatom) :
  key_is name k = true -> k = AStr name.
Proof.
  destruct k; simpl; try discriminate.
  intros H; apply pystr_eqb_eq in H; now subst.
Qed.

(** With distinct keys, what a lookup finds does not depend on the
    order in which the items were inserted. *)
Lemma find_key_permutation (name : pystr)
      (items items' : list (pyatom * pyatom)) :
  Permutation items items' -> NoDup (map fst items) ->
  find (fun kv => key_is name (fst kv)) items
  = find (fun kv => key_is name (fst kv)) items'.
Proof.
  induction 1 as [|x l l' P IH|x y l|l l' l'' P1 IH1 P2 IH2]; intros D.
  - reflexivity.
  - simpl. inversion D; subst. now rewrite IH.
  - simpl.
    destruct (key_is name (fst x)) eqn:Ex, (key_is name (fst y)) eqn:Ey;
      try reflexivity.
    apply key_is_eq in Ex, Ey. simpl in D. inversion D as [|? ? N _]; subst.
    exfalso; apply N; left; congruence.
  - rewrite IH1 by exact D. apply IH2.
    apply (Permutation_NoDup (Permutation_map fst P1) D).
Qed.

Lemma section_atoms_permutation (items items' : list (pyatom * pyatom))
      (nh : pystr * pystr) :
  Permutation items items' -> NoDup (map fst items) ->
  section_atoms items' nh = section_atoms items nh.
Proof.
  intros P D; unfold section_atoms.
  now rewrite (find_key_permutation (fst nh) items items' P D).
Qed.

Lemma format_permutation (items items' : list (pyatom * pyatom)) :
  has_recognized items = true ->
  Permutation items items' -> NoDup (map fst items) ->
  format (Dict items') = format (Dict items).
Proof.
  intros Hr P D. rewrite !format_dict.
  pose proof (some_section items Hr) as Hne.
  unfold recognized_keys, flat_map in *.
  rewrite !(fun nh => section_atoms_permutation items items' nh P D).
  now destruct (_ ++ _).
Qed.

(** C9. The empty mapping is rendered as ["## Results"] and nothing
    else. *)
Theorem format_empty_mapping :
  format (Dict []) = Return (lit "## Results").
Proof. reflexivity. Qed.

Lemma str_of_int_within (n : Z) :
  int_digits n <= int_max_str_digits -> str_of_int n = Return (str_int n).
Proof.
  intros H. unfold str_of_int.
  now rewrite (proj2 (Nat.ltb_ge _ _) H).
Qed.

Lemma str_of_int_beyond (n : Z) :
  int_max_str_digits < int_digits n ->
  str_of_int n = Raise (mk_exc ValueError int_limit_message).
Proof.
  intros H. unfold str_of_int.
  now rewrite (proj2 (Nat.ltb_lt _ _) H).
Qed.

(** C5, as amended. On an input that is not a mapping the formatter
    does what [str] does on it: it returns the string [str] returns,
    and raises what [str] raises. [None], [True], [False] and a string
    are rendered as [str] writes them; the integer 5 is rendered as
    ["5"], and an integer of at most 4300 digits as its decimal
    numeral; for an integer of more digits a [ValueError] comes out. *)
Theorem format_non_mapping (a : pyatom) :
  format (Atom a) = str a
  /\ format (Atom (AInt 5)) = Return (lit "5")
  /\ (forall n : Z,
        int_digits n <= int_max_str_digits ->
        format (Atom (AInt n))
        = Return (lit (NilZero.string_of_int (Z.to_int n))))
  /\ (forall n : Z,
        int_max_str_digits < int_digits n ->
        format (Atom (AInt n))
        = Raise (mk_exc ValueError int_limit_message))
  /\ format (Atom ANone) = Return (lit "None")
  /\ format (Atom (ABool true)) = Return (lit "True")
  /\ format (Atom (ABool false)) = Return (lit "False")
  /\ (forall s, format (Atom (AStr s)) = Return s).
Proof.
  split; [reflexivity|]. split; [reflexivity|].
  split; [|split; [|repeat split]].
  - intros n H. cbn [format_agent_response str].
    now rewrite str_of_int_within.
  - intros n H. cbn [format_agent_response str].
    now apply str_of_int_beyond.
Qed.

(** A value that [str] refuses makes the per-key dump raise. *)
Lemma dump_unprintable (key : pystr) (value : pyatom) (e : exc) :
  dict_contains [(AStr key, value)] (lit "thoughts") = false ->
  dict_contains [(AStr key, value)] (lit "observations") = false ->
  dict_contains [(AStr key, value)] (lit "answer") = false ->
  str value = Raise e ->
  format (Dict [(AStr key, value)]) = Raise e.
Proof.
  intros H1 H2 H3 E. unfold format_agent_response, section_for.
  rewrite H1, H2, H3. cbn [bind dump_items title]. now rewrite E.
Qed.

(** For a mapping that holds the string [X] under ["answer"], and
    strings under ["thoughts"] and ["observations"] where it has those
    keys, the output ends with ["## Answer"], a blank line and [X]. *)
Theorem answer_section_in_output (items : list (pyatom * pyatom))
        (X : pystr) :
  dict_getitem items (lit "answer") = Return (AStr X) ->
  str_valued items (lit "thoughts") = true ->
  str_valued items (lit "observations") = true ->
  exists before,
    format (Dict items)
    = Return (before ++ lit "## Answer" ++ [nl; nl] ++ X).
Proof.
  intros Ha Ht Ho.
  assert (F : exists k, find (fun kv => key_is (lit "answer") (fst kv)) items
                        = Some (k, AStr X)).
  { unfold dict_getitem in Ha.
    destruct (find _ items) as [[k v]|]; [|discriminate].
    inversion Ha; subst; now exists k. }
  destruct F as [k F].
  assert (Hr : has_recognized items = true).
  { unfold has_recognized, recognized_keys; simpl.
    rewrite !dict_contains_find, F. now rewrite !orb_true_r. }
  assert (Hs : recognized_are_str items = true).
  { unfold recognized_are_str, recognized_keys; simpl.
    rewrite Ht, Ho. unfold str_valued. now rewrite F. }
  rewrite (format_recognized items Hr Hs).
  assert (A : headed items (lit "answer", lit "## Answer")
              = [lit "## Answer"; X])
    by (unfold headed; cbn [fst snd]; now rewrite F).
  change (fixed_order_document items)
    with (join_strs [nl; nl]
            (headed items (lit "thoughts", lit "## Thought Process")
             ++ headed items (lit "observations", lit "## Observations")
             ++ headed items (lit "answer", lit "## Answer") ++ [])).
  rewrite A, app_assoc.
  destruct (join_strs_snoc2 [nl; nl]
              (headed items (lit "thoughts", lit "## Thought Process")
               ++ headed items (lit "observations", lit "## Observations"))
              (lit "## Answer") X) as [before E].
  exists before. cbn [app]. now rewrite E.
Qed.

(** C4, as amended. Take a mapping whose values under ["thoughts"],
    ["observations"] and ["answer"] are strings. If it has one of
    these keys, the output is the headed sections of the keys it has,
    in the order Thought Process, Observations, Answer, and a mapping
    with the same items in another order gives the same output. If it
    has none of them, [key.title()] returns for each of its keys, as it
    does for a string, and [str(value)] returns for each of its values,
    as it does unless the value is an integer of more than 4300 digits
    or an object whose own [__str__] raises, the output is
    ["## Results"] followed, for each item in the mapping's order, by
    ["### "] with the title-cased key and by [str] of the value. *)
Theorem format_mapping_documents (items : list (pyatom * pyatom)) :
  recognized_are_str items = true ->
  has_recognized items || dumpable items = true ->
  format (Dict items)
  = Return (if has_recognized items then fixed_order_document items
            else results_document str_title items)
  /\ forall items',
       has_recognized items = true -> NoDup (map fst items) ->
       Permutation items items' ->
       format (Dict items') = format (Dict items).
Proof.
  intros Hs Hk; split.
  - destruct (has_recognized items) eqn:Hr.
    + now apply format_recognized.
    + now apply format_unrecognized.
  - intros items' Hr D P. now apply format_permutation.
Qed.

End FormatterFacts.

Lemma answer_section_in_output_witness :
  exists before,
    format_agent_response title_ascii
      (Dict [(AStr (lit "answer"), AStr (lit "X"))])
    = Return (before ++ lit "## Answer" ++ [nl; nl] ++ lit "X").
Proof.
  apply (answer_section_in_output title_ascii
           [(AStr (lit "answer"), AStr (lit "X"))] (lit "X"));
    reflexivity.
Defined.

(** C3. The formatter on a mapping that holds ["X"] under ["answer"]
    and the integer 5 under ["thoughts"]: the value of ["thoughts"] is
    appended as it is, where the per-key dump appends [str(value)], and
    [join] raises a [TypeError]. No output with ["## Answer"] and ["X"]
    is produced. *)
Lemma answer_with_non_str_thoughts_raises :
  dict_getitem [(AStr (lit "thoughts"), AInt 5);
                (AStr (lit "answer"), AStr (lit "X"))] (lit "answer")
  = Return (AStr (lit "X"))
  /\ format_agent_response title_ascii
       (Dict [(AStr (lit "thoughts"), AInt 5);
              (AStr (lit "answer"), AStr (lit "X"))])
     = Raise (mk_exc TypeError
                (lit "sequence item 1: expected str instance, int found")).
Proof. split; reflexivity. Qed.

Lemma format_mapping_documents_witness :
  format_agent_response title_ascii
    (Dict [(AStr (lit "answer"), AStr (lit "42"));
           (AStr (lit "thoughts"), AStr (lit "hm"))])
  = Return (lit "## Thought Process" ++ [nl; nl] ++ lit "hm" ++ [nl; nl]
            ++ lit "## Answer" ++ [nl; nl] ++ lit "42")
  /\ format_agent_response title_ascii
       (Dict [(AStr (lit "thoughts"), AStr (lit "hm"));
              (AStr (lit "answer"), AStr (lit "42"))])
     = format_agent_response title_ascii
         (Dict [(AStr (lit "answer"), AStr (lit "42"));
                (AStr (lit "thoughts"), AStr (lit "hm"))])
  /\ format_agent_response title_ascii
       (Dict [(AStr (lit "first key"), AInt 7); (AStr (lit "b"), ANone);
              (a_bytes (lit "b'raw key'") (lit "b'Raw Key'"),
               a_float (lit "1.5"))])
     = Return (lit "## Results" ++ [nl; nl] ++ lit "### First Key" ++ [nl; nl]
               ++ lit "7" ++ [nl; nl] ++ lit "### B" ++ [nl; nl]
               ++ lit "None" ++ [nl; nl] ++ lit "### b'Raw Key'" ++ [nl; nl]
               ++ lit "1.5").
Proof.
  split; [|split].
  - exact (proj1 (format_mapping_documents title_ascii
                    [(AStr (lit "answer"), AStr (lit "42"));
                     (AStr (lit "thoughts"), AStr (lit "hm"))]
                    eq_refl eq_refl)).
  - apply (proj2 (format_mapping_documents title_ascii
                    [(AStr (lit "answer"), AStr (lit "42"));
                     (AStr (lit "thoughts"), AStr (lit "hm"))]
                    eq_refl eq_refl)).
    + reflexivity.
    + repeat constructor; simpl; intros H;
        repeat (destruct H as [H|H]; try discriminate H); exact H.
    + apply perm_swap.
  - exact (proj1 (format_mapping_documents title_ascii
                    [(AStr (lit "first key"), AInt 7); (AStr (lit "b"), ANone);
                     (a_bytes (lit "b'raw key'") (lit "b'Raw Key'"),
                      a_float (lit "1.5"))]
                    eq_refl eq_refl)).
Defined.

(** The integer written with [k] ones has [k] digits. *)
Lemma int_digits_repunit (k : nat) : int_digits (repunit (S k)) = S k.
Proof.
  unfold int_digits, repunit. rewrite DecimalZ.to_of.
  simpl. f_equal.
  induction k as [|k IH]; simpl; [reflexivity | now rewrite IH].
Qed.

Lemma str_repunit_raises :
  str (AInt (repunit 4301)) = Raise (mk_exc ValueError int_limit_message).
Proof.
  cbn [str]. apply str_of_int_beyond. rewrite int_digits_repunit.
  unfold int_max_str_digits. apply Nat.lt_succ_diag_r.
Qed.

(** C4 as it was stated does not hold: a key without [title], such as
    an integer, makes [key.title()] raise an [AttributeError]; a value
    under a recognized key that is not a string makes [join] raise a
    [TypeError]; and a value [str] refuses, such as the integer written
    with 4301 ones, makes the per-key dump raise a [ValueError]. *)
Lemma format_mapping_can_raise :
  format_agent_response title_ascii (Dict [(AInt 1, AStr (lit "a"))])
  = Raise (mk_exc AttributeError
             (lit "'int' object has no attribute 'title'"))
  /\ format_agent_response title_ascii (Dict [(AStr (lit "answer"), AInt 5)])
     = Raise (mk_exc TypeError
                (lit "sequence item 1: expected str instance, int found"))
  /\ format_agent_response title_ascii
       (Dict [(AStr (lit "n"), AInt (repunit 4301))])
     = Raise (mk_exc ValueError int_limit_message).
Proof.
  split; [reflexivity|]. split; [reflexivity|].
  apply dump_unprintable; [reflexivity | reflexivity | reflexivity|].
  exact str_repunit_raises.
Qed.

Lemma format_non_mapping_witness :
  format_agent_response title_ascii (Atom (AInt (-12))) = Return (lit "-12")
  /\ format_agent_response title_ascii (Atom (AInt 5)) = Return (lit "5").
Proof.
  destruct (format_non_mapping title_ascii (AInt (-12)))
    as [_ [H5 [Hn _]]].
  split; [|exact H5].
  rewrite (Hn (-12)%Z); [reflexivity|].
  apply Nat.leb_le. reflexivity.
Defined.

(** C5 as it was stated does not hold: [str] refuses the integer
    written with 4301 ones, and the formatter, which is given it,
    raises the [ValueError] that [str] raises. *)
Lemma format_huge_int_raises :
  format_agent_response title_ascii (Atom (AInt (repunit 4301)))
  = Raise (mk_exc ValueError int_limit_message).
Proof. exact str_repunit_raises. Qed.

(** ** What [collapse] and [strip] leave *)

Lemma is_nl_isspace (c : N) : is_nl c = true -> isspace c = true.
Proof. intros H; apply is_nl_eq in H; now subst. Qed.

Lemma collapse_from_no_run3 (s : pystr) (seen : nat) :
  contains [nl; nl; nl] (copied seen ++ collapse_from seen s) = false.
Proof.
  revert seen; induction s as [|c s IH]; intros seen.
  - now destruct seen as [|[|seen]].
  - simpl collapse_from. destruct (is_nl c) eqn:Ec.
    + apply is_nl_eq in Ec; subst c.
      destruct seen as [|[|seen]]; simpl Nat.ltb; cbv iota.
      * exact (IH 1).
      * exact (IH 2).
      * exact (IH (S (S seen))).
    + pose proof (IH 0) as H0. simpl app in H0.
      unfold is_nl in Ec.
      destruct seen as [|[|seen]]; cbn -[N.eqb nl];
        rewrite ?N.eqb_refl, ?Ec; cbn -[N.eqb nl]; exact H0.
Qed.

Lemma collapse_no_run3 (s : pystr) : contains [nl; nl; nl] (collapse s) = false.
Proof. exact (collapse_from_no_run3 s 0). Qed.

Lemma collapse_nil (s : pystr) : collapse s = [] <-> s = [].
Proof.
  split; [|now intros ->].
  destruct s as [|c s]; [reflexivity|].
  unfold collapse; simpl. now destruct (is_nl c).
Qed.

Lemma collapse_from_last (s : pystr) (c : N) (seen : nat) :
  is_nl c = false ->
  collapse_from seen (s ++ [c]) = collapse_from seen s ++ [c].
Proof.
  intros Hc; revert seen; induction s as [|x s IH]; intros seen; simpl.
  - now rewrite Hc.
  - destruct (is_nl x); [destruct (Nat.ltb seen 2)|]; simpl; now rewrite IH.
Qed.

Lemma lstrip_breaks (s : pystr) : breaks isspace (lstrip s) = true.
Proof.
  induction s as [|c s IH]; simpl; [reflexivity|].
  destruct (isspace c) eqn:E; [exact IH | simpl; now rewrite E].
Qed.

Lemma lstrip_fixed (s : pystr) : breaks isspace s = true -> lstrip s = s.
Proof. destruct s as [|c s]; simpl; [reflexivity | now destruct (isspace c)]. Qed.

Lemma lstrip_app_nonspace (a : pystr) (c : N) (b : pystr) :
  isspace c = false -> lstrip (a ++ c :: b) = lstrip a ++ c :: b.
Proof.
  intros Hc; induction a as [|x a IH]; simpl; [now rewrite Hc|].
  now destruct (isspace x).
Qed.

Lemma lstrip_nil (s : pystr) : lstrip s = [] <-> forallb isspace s = true.
Proof.
  induction s as [|c s IH]; simpl; [tauto|].
  destruct (isspace c); simpl; [exact IH | split; discriminate].
Qed.

Lemma forallb_rev (p : N -> bool) (s : pystr) :
  forallb p (rev s) = forallb p s.
Proof.
  destruct (forallb p s) eqn:E.
  - rewrite forallb_forall in *. intros x Hx; apply E, in_rev, Hx.
  - destruct (forallb p (rev s)) eqn:R; [|reflexivity].
    rewrite <- E. symmetry. rewrite forallb_forall in *.
    intros x Hx; apply R. now apply in_rev in Hx.
Qed.

(** A string that neither starts nor ends with whitespace. *)
Lemma strip_fixed (s : pystr) :
  breaks isspace s = true -> breaks isspace (rev s) = true -> strip s = s.
Proof.
  intros H1 H2. unfold strip, rstrip.
  now rewrite (lstrip_fixed s H1), (lstrip_fixed (rev s) H2), rev_involutive.
Qed.

Lemma strip_breaks (s : pystr) :
  breaks isspace (strip s) = true /\ breaks isspace (rev (strip s)) = true.
Proof.
  unfold strip, rstrip. rewrite rev_involutive. split; [|apply lstrip_breaks].
  pose proof (lstrip_breaks s) as B.
  destruct (lstrip s) as [|c v]; [reflexivity|].
  simpl in B. apply negb_true_iff in B.
  simpl rev. rewrite (lstrip_app_nonspace (rev v) c [] B).
  rewrite rev_app_distr. simpl. now rewrite B.
Qed.

Lemma strip_nil (s : pystr) : strip s = [] <-> forallb isspace s = true.
Proof.
  rewrite <- lstrip_nil. unfold strip, rstrip.
  pose proof (lstrip_breaks s) as B.
  destruct (lstrip s) as [|c v].
  - simpl; tauto.
  - simpl in B. apply negb_true_iff in B.
    simpl rev. rewrite (lstrip_app_nonspace (rev v) c [] B), rev_app_distr.
    simpl. split; discriminate.
Qed.

Lemma collapse_keeps_stripped (s : pystr) :
  breaks isspace s = true -> breaks isspace (rev s) = true ->
  strip (collapse s) = collapse s.
Proof.
  intros H1 H2. apply strip_fixed.
  - destruct s as [|c s]; [reflexivity|].
    simpl in H1. unfold collapse; simpl.
    destruct (is_nl c) eqn:Ec; [|simpl; exact H1].
    apply is_nl_isspace in Ec. now rewrite Ec in H1.
  - destruct (rev s) as [|c r] eqn:Er.
    + apply (f_equal (@rev N)) in Er. rewrite rev_involutive in Er.
      now subst s.
    + apply (f_equal (@rev N)) in Er. rewrite rev_involutive in Er.
      simpl in Er, H2. subst s.
      assert (Ec : is_nl c = false).
      { destruct (is_nl c) eqn:Ec; [|reflexivity].
        apply is_nl_isspace in Ec. now rewrite Ec in H2. }
      unfold collapse. rewrite (collapse_from_last _ _ _ Ec), rev_app_distr.
      simpl. exact H2.
Qed.

(** ** A page that was fetched *)

Section FetchSuccess.

Variable requests_get : pystr -> result Response.
Variable markdownify : pystr -> result pystr.

(** C1, as amended. When the GET succeeds with a 2xx status and the
    converter turns the body into Markdown, [visit_webpage] returns
    that Markdown stripped and with every run of three or more
    newlines cut down to two. No three newlines in a row are left,
    the result neither starts nor ends with whitespace, and it is
    empty exactly when the converted text is all whitespace. *)
Theorem visit_webpage_success (url : pystr) (response : Response)
        (converted : pystr) :
  requests_get url = Return response ->
  ((200 <=? status_code response) && (status_code response <? 300))%Z = true ->
  markdownify (text response) = Return converted ->
  visit_webpage requests_get markdownify url
  = Return (collapse (strip converted))
  /\ contains [nl; nl; nl] (collapse (strip converted)) = false
  /\ strip (collapse (strip converted)) = collapse (strip converted)
  /\ (collapse (strip converted) = [] <-> forallb isspace converted = true).
Proof.
  intros G S M. repeat split.
  - unfold visit_webpage, visit_webpage_try. rewrite G. simpl bind.
    unfold raise_for_status.
    apply andb_true_iff in S as [S1 S2].
    apply Z.leb_le in S1. apply Z.ltb_lt in S2.
    replace ((400 <=? status_code response) && (status_code response <? 500))%Z
      with false by (symmetry; apply andb_false_iff; left; apply Z.leb_gt; lia).
    replace ((500 <=? status_code response) && (status_code response <? 600))%Z
      with false by (symmetry; apply andb_false_iff; left; apply Z.leb_gt; lia).
    simpl bind. rewrite M. simpl.
    now rewrite sub_newline_runs_collapse.
  - apply collapse_no_run3.
  - apply collapse_keeps_stripped; apply strip_breaks.
  - intros H. apply (proj1 (collapse_nil _)) in H.
    now apply (proj1 (strip_nil _)).
  - intros H. apply (proj2 (collapse_nil _)).
    now apply (proj2 (strip_nil _)).
Qed.

End FetchSuccess.

Lemma visit_webpage_success_witness :
  let page := [97; nl; nl; nl; nl; 98; nl; nl; 99; nl; 32]%N in
  visit_webpage (get_page page) convert_text (lit "http://a.example/")
  = Return [97; nl; nl; 98; nl; nl; 99]%N
  /\ contains [nl; nl; nl] (collapse (strip page)) = false.
Proof.
  destruct (visit_webpage_success
              (get_page [97; nl; nl; nl; nl; 98; nl; nl; 99; nl; 32]%N)
              convert_text (lit "http://a.example/")
              (mk_response 200 (lit "OK") (lit "http://a.example/")
                 [97; nl; nl; nl; nl; 98; nl; nl; 99; nl; 32]%N)
              [97; nl; nl; nl; nl; 98; nl; nl; 99; nl; 32]%N
              eq_refl eq_refl eq_refl) as [H1 [H2 _]].
  split; [exact H1 | exact H2].
Defined.

(** C1 as it was stated does not hold: a page answered with status 200
    whose HTML holds no text is converted to nothing, and the string
    returned is empty. *)
Lemma blank_page_gives_empty_result :
  get_page (lit "<html><body></body></html>") (lit "http://a.example/")
  = Return (mk_response 200 (lit "OK") (lit "http://a.example/")
              (lit "<html><body></body></html>"))
  /\ visit_webpage (get_page (lit "<html><body></body></html>")) convert_blank
       (lit "http://a.example/") = Return [].
Proof. split; reflexivity. Qed.

(** ** The sources found in a result *)

Lemma rep_loop_accepting
      (step : pystr -> (pystr -> option pystr) -> option pystr)
      (k : pystr -> option pystr) (fuel : nat) :
  accepting k -> accepting (rep_loop step k fuel 0).
Proof.
  intros Hk; destruct fuel as [|fuel]; intros x; simpl; [apply Hk|].
  destruct (step x _); [discriminate | apply Hk].
Qed.

(** On an accepting continuation one round of the loop of
    [url_pattern] takes exactly one character of [url_class]: the
    escape [%XX] is never needed, [%] being in [[$-_]] already. *)
Lemma url_char_class (s : pystr) (k : pystr -> option pystr) :
  accepting k -> run url_char s k = run (Cls url_class) s k.
Proof.
  intros Hk. destruct s as [|c s]; [reflexivity|].
  unfold url_char, url_class. cbn [run].
  destruct (k s) eqn:K; [|now apply Hk in K].
  destruct (cls_alpha c); [reflexivity|].
  destruct (cls_digit c); [reflexivity|].
  destruct (cls_punct c) eqn:P; [reflexivity|].
  destruct (cls_misc c); [reflexivity|]. cbn [orb].
  unfold chr. cbn [run].
  destruct (N.eqb (code "%") c) eqn:E; [|reflexivity].
  apply N.eqb_eq in E; subst c. discriminate P.
Qed.

Lemma url_loop (t rest : pystr) :
  url_tail t = true -> breaks url_class rest = true ->
  rep_loop (run url_char) Some (List.length (t ++ rest)) 1 (t ++ rest)
  = Some rest.
Proof.
  intros Ht Hr. destruct t as [|c t]; [discriminate|].
  simpl in Ht. apply andb_true_iff in Ht as [Hc Ht].
  cbn [app List.length rep_loop pred].
  rewrite url_char_class by (apply rep_loop_accepting, accepting_Some).
  cbn [run]. rewrite Hc.
  rewrite (rep_loop_rest (run url_char) url_class Some url_char_class
             accepting_Some) by lia.
  now rewrite drop_while_app.
Qed.

(** A URL followed by something the loop refuses is matched whole. *)
Lemma match_url (secure : bool) (t rest : pystr) :
  url_tail t = true -> breaks url_class rest = true ->
  match_at url_pattern (scheme secure ++ t ++ rest) = Some rest.
Proof.
  intros Ht Hr. pose proof (url_loop t rest Ht Hr) as L.
  unfold match_at, url_pattern.
  destruct secure; cbn -[url_char rep_loop List.length app]; cbn [app].
  - cbn [run literal chr]. cbn -[url_char rep_loop List.length app].
    now rewrite L.
  - cbn [run literal chr]. cbn -[url_char rep_loop List.length app].
    exact L.
Qed.

(** No match starts at a character other than h. *)
Lemma no_match_without_h (c : N) (s : pystr) :
  N.eqb (code "h") c = false -> match_at url_pattern (c :: s) = None.
Proof.
  intros H. unfold match_at, url_pattern. cbn [run literal chr].
  now rewrite H.
Qed.

Lemma findall_no_start (part rest : pystr) :
  no_match_starts part rest = true ->
  findall url_pattern (part ++ rest) = findall url_pattern rest.
Proof.
  induction part as [|c part IH]; [reflexivity|].
  cbn [no_match_starts].
  destruct (match_at url_pattern ((c :: part) ++ rest)) eqn:M;
    [discriminate|].
  intros H. cbn [app] in *. rewrite (findall_no_match _ _ _ M).
  now apply IH.
Qed.

(** A match starts with ["http"]. *)
Lemma match_starts_http (s : pystr) :
  startswith (lit "http") s = false -> match_at url_pattern s = None.
Proof.
  unfold match_at, url_pattern. cbn [run literal chr].
  destruct s as [|c0 [|c1 [|c2 [|c3 s]]]]; try reflexivity.
  - destruct (N.eqb (code "h") c0); reflexivity.
  - destruct (N.eqb (code "h") c0); [|reflexivity].
    destruct (N.eqb (code "t") c1); reflexivity.
  - destruct (N.eqb (code "h") c0); [|reflexivity].
    destruct (N.eqb (code "t") c1); [|reflexivity].
    destruct (N.eqb (code "t") c2); reflexivity.
  - change (startswith (lit "http") (c0 :: c1 :: c2 :: c3 :: s))
      with (N.eqb (code "h") c0 && (N.eqb (code "t") c1 &&
            (N.eqb (code "t") c2 && (N.eqb (code "p") c3 && true)))).
    destruct (N.eqb (code "h") c0); [|reflexivity].
    destruct (N.eqb (code "t") c1); [|reflexivity].
    destruct (N.eqb (code "t") c2); [|reflexivity].
    destruct (N.eqb (code "p") c3); [discriminate | reflexivity].
Qed.

(** Before a URL or at the end of the text, a part that does not hold
    ["http"] holds the start of no match. *)
Lemma startswith_http_app (part rest : pystr) :
  part <> [] -> startswith (lit "http") part = false ->
  rest = [] \/ startswith (lit "http") rest = true ->
  startswith (lit "http") (part ++ rest) = false.
Proof.
  intros Hne Hp Hr.
  destruct part as [|c0 part]; [congruence|].
  destruct Hr as [->|Hr]; [now rewrite app_nil_r|].
  destruct rest as [|r0 rest]; [discriminate Hr|].
  change (startswith (lit "http") (r0 :: rest))
    with (N.eqb 104 r0 && startswith (lit "ttp") rest) in Hr.
  apply andb_true_iff in Hr as [E0 _]. apply N.eqb_eq in E0; subst r0.
  destruct part as [|c1 [|c2 [|c3 part]]].
  - change (N.eqb 104 c0 && (N.eqb 116 104 && startswith (lit "tp") rest)
            = false).
    now rewrite andb_false_r.
  - change (N.eqb 104 c0 && (N.eqb 116 c1 && (N.eqb 116 104
            && startswith (lit "p") rest)) = false).
    now rewrite !andb_false_r.
  - change (N.eqb 104 c0 && (N.eqb 116 c1 && (N.eqb 116 c2 && (N.eqb 112 104
            && startswith [] rest))) = false).
    now rewrite !andb_false_r.
  - exact Hp.
Qed.

Lemma no_http_no_match_starts (part rest : pystr) :
  contains (lit "http") part = false ->
  rest = [] \/ startswith (lit "http") rest = true ->
  no_match_starts part rest = true.
Proof.
  intros Hc Hr; induction part as [|c part IH]; [reflexivity|].
  cbn [contains] in Hc. apply orb_false_iff in Hc as [Hs Hc].
  cbn [no_match_starts].
  rewrite match_starts_http
    by (apply startswith_http_app; [discriminate | exact Hs | exact Hr]).
  now apply IH.
Qed.

Lemma findall_url (secure : bool) (t rest : pystr) :
  url_tail t = true -> breaks url_class rest = true ->
  findall url_pattern ((scheme secure ++ t) ++ rest)
  = (scheme secure ++ t) :: findall url_pattern rest.
Proof.
  intros Ht Hr. pose proof (match_url secure t rest Ht Hr) as M.
  destruct secure.
  - change (scheme true ++ t ++ rest)
      with (104%N :: tl (scheme true) ++ t ++ rest) in M.
    rewrite app_assoc in M.
    exact (findall_match _ _ _ _ M).
  - change (scheme false ++ t ++ rest)
      with (104%N :: tl (scheme false) ++ t ++ rest) in M.
    rewrite app_assoc in M.
    exact (findall_match _ _ _ _ M).
Qed.

(** C7, as amended. Take a text made of a lead, a URL, a separator, a
    second URL and a trailer, where a URL is ["http://"] or
    ["https://"] followed by one character or more of those the pattern
    accepts, the separator starts with a character the pattern refuses
    and the trailer is empty or starts with such a character. When no
    match of the pattern starts inside the lead, the separator or the
    trailer, and so whenever none of the three holds ["http"], the
    sources are these two URLs, as they stand in the text and in the
    order in which they stand there. The two may be the same string:
    nothing is removed, checked or rewritten. *)
Theorem sources_two_urls (secure1 secure2 : bool)
        (lead t1 sep t2 trail : pystr) :
  url_tail t1 = true -> stops sep = true ->
  url_tail t2 = true -> breaks url_class trail = true ->
  (no_match_starts lead
     ((scheme secure1 ++ t1) ++ sep ++ (scheme secure2 ++ t2) ++ trail)
   = true ->
   no_match_starts sep ((scheme secure2 ++ t2) ++ trail) = true ->
   no_match_starts trail [] = true ->
   sources (lead ++ (scheme secure1 ++ t1) ++ sep
            ++ (scheme secure2 ++ t2) ++ trail)
   = [scheme secure1 ++ t1; scheme secure2 ++ t2])
  /\ (contains (lit "http") lead = false ->
      contains (lit "http") sep = false ->
      contains (lit "http") trail = false ->
      sources (lead ++ (scheme secure1 ++ t1) ++ sep
               ++ (scheme secure2 ++ t2) ++ trail)
      = [scheme secure1 ++ t1; scheme secure2 ++ t2]).
Proof.
  intros H1 Hs H2 Hb.
  assert (G : no_match_starts lead
                ((scheme secure1 ++ t1) ++ sep
                 ++ (scheme secure2 ++ t2) ++ trail) = true ->
              no_match_starts sep ((scheme secure2 ++ t2) ++ trail) = true ->
              no_match_starts trail [] = true ->
              sources (lead ++ (scheme secure1 ++ t1) ++ sep
                       ++ (scheme secure2 ++ t2) ++ trail)
              = [scheme secure1 ++ t1; scheme secure2 ++ t2]).
  { intros Nl Ns Nt. unfold sources.
    destruct sep as [|c sep]; [discriminate|]. cbn [stops] in Hs.
    rewrite (findall_no_start lead _ Nl).
    rewrite (findall_url secure1 t1 _ H1) by (cbn [app breaks]; exact Hs).
    rewrite (findall_no_start (c :: sep) _ Ns).
    rewrite (findall_url secure2 t2 trail H2 Hb).
    rewrite <- (app_nil_r trail), (findall_no_start trail [] Nt).
    reflexivity. }
  split; [exact G|].
  intros Cl Cs Ct. apply G.
  - apply no_http_no_match_starts; [exact Cl|].
    right. rewrite <- !app_assoc. now destruct secure1.
  - apply no_http_no_match_starts; [exact Cs|].
    right. rewrite <- !app_assoc. now destruct secure2.
  - apply no_http_no_match_starts; [exact Ct | now left].
Qed.

Lemma sources_two_urls_witness :
  sources (lit "The site http://a.example/ and then http://b.example/ here")
  = [lit "http://a.example/"; lit "http://b.example/"]
  /\ sources (lit "See http://a.example/x?y=1 or http://a.example/x?y=1 (twice)")
     = [lit "http://a.example/x?y=1"; lit "http://a.example/x?y=1"]
  /\ sources (lit "http is plain, https://a.example/x is not;http://b.example")
     = [lit "https://a.example/x"; lit "http://b.example"].
Proof.
  split; [|split].
  - exact (proj2 (sources_two_urls false false (lit "The site ")
                    (lit "a.example/") (lit " and then ") (lit "b.example/")
                    (lit " here") eq_refl eq_refl eq_refl eq_refl)
             eq_refl eq_refl eq_refl).
  - exact (proj2 (sources_two_urls false false (lit "See ")
                    (lit "a.example/x?y=1") (lit " or ")
                    (lit "a.example/x?y=1") (lit " (twice)")
                    eq_refl eq_refl eq_refl eq_refl)
             eq_refl eq_refl eq_refl).
  - exact (proj1 (sources_two_urls true false (lit "http is plain, ")
                    (lit "a.example/x") (lit " is not;") (lit "b.example")
                    [] eq_refl eq_refl eq_refl eq_refl)
             eq_refl eq_refl eq_refl).
Defined.

(** C7 as it was stated does not hold: a second ["http://"] that stands
    inside the first URL is swallowed by it, and the list has one entry. *)
Lemma nested_url_gives_one_source :
  contains (lit "http://")
    (lit "http://a.example/?next=http://b.example/") = true
  /\ contains (lit "http://") (lit "a.example/?next=http://b.example/") = true
  /\ sources (lit "http://a.example/?next=http://b.example/")
     = [lit "http://a.example/?next=http://b.example/"].
Proof. repeat split. Qed.

(** * Further properties *)

(** ** More on [visit_webpage] *)

Lemma collapse_from_idempotent (s : pystr) (seen : nat) :
  collapse_from seen (collapse_from seen s) = collapse_from seen s.
Proof.
  revert seen; induction s as [|c s IH]; intros seen; [reflexivity|].
  simpl. destruct (is_nl c) eqn:Ec.
  - destruct (Nat.ltb seen 2) eqn:L; [|apply IH].
    simpl. now rewrite Ec, L, IH.
  - simpl. now rewrite Ec, IH.
Qed.

Lemma filter_nonspace_lstrip (s : pystr) :
  filter nonspace (lstrip s) = filter nonspace s.
Proof.
  induction s as [|c s IH]; [reflexivity|]. cbn [lstrip].
  destruct (isspace c) eqn:E; [|reflexivity].
  cbn [filter]. unfold nonspace at 2. now rewrite E.
Qed.

Lemma filter_nonspace_strip (s : pystr) :
  filter nonspace (strip s) = filter nonspace s.
Proof.
  unfold strip, rstrip.
  rewrite filter_rev, filter_nonspace_lstrip, <- filter_rev, rev_involutive.
  apply filter_nonspace_lstrip.
Qed.

Lemma filter_nonspace_collapse (s : pystr) (seen : nat) :
  filter nonspace (collapse_from seen s) = filter nonspace s.
Proof.
  revert seen; induction s as [|c s IH]; intros seen; [reflexivity|].
  simpl. destruct (is_nl c) eqn:Ec.
  - assert (N : nonspace c = false)
      by (unfold nonspace; now rewrite (is_nl_isspace c Ec)).
    rewrite N. destruct (Nat.ltb seen 2); [|apply IH].
    simpl. rewrite N. apply IH.
  - simpl. now rewrite IH.
Qed.

Lemma length_lstrip (s : pystr) : List.length (lstrip s) <= List.length s.
Proof.
  induction s as [|c s IH]; simpl; [lia|].
  destruct (isspace c); simpl; lia.
Qed.

Lemma length_strip (s : pystr) : List.length (strip s) <= List.length s.
Proof.
  unfold strip, rstrip. rewrite length_rev.
  pose proof (length_lstrip (rev (lstrip s))) as H1.
  pose proof (length_lstrip s) as H2.
  rewrite length_rev in H1. lia.
Qed.

Lemma length_collapse_from (s : pystr) (seen : nat) :
  List.length (collapse_from seen s) <= List.length s.
Proof.
  revert seen; induction s as [|c s IH]; intros seen; simpl; [lia|].
  destruct (is_nl c); [destruct (Nat.ltb seen 2)|]; simpl;
    try (specialize (IH (S seen)); lia);
    try (specialize (IH seen); lia); specialize (IH 0); lia.
Qed.

Section FetchMore.

Variable requests_get : pystr -> result Response.
Variable markdownify : pystr -> result pystr.

Local Notation "'visit'" := (visit_webpage requests_get markdownify).
Local Notation "'attempt'" := (visit_webpage_try requests_get markdownify).

Lemma raise_for_status_outcome (r : Response) :
  raise_for_status r
  = if is_error_status (status_code r)
    then Raise (mk_exc HTTPError (http_error_text r))
    else Return tt.
Proof.
  unfold raise_for_status, is_error_status, http_error_text.
  destruct (400 <=? status_code r)%Z eqn:A; simpl.
  - destruct (status_code r <? 500)%Z eqn:B; simpl.
    + assert ((status_code r <? 600)%Z = true) as ->
        by (apply Z.ltb_lt; apply Z.ltb_lt in B; lia).
      reflexivity.
    + assert ((500 <=? status_code r)%Z = true) as ->
        by (apply Z.leb_le; apply Z.ltb_ge in B; lia).
      simpl. now destruct (status_code r <? 600)%Z.
  - assert ((500 <=? status_code r)%Z = false) as ->
      by (apply Z.leb_gt; apply Z.leb_gt in A; lia).
    reflexivity.
Qed.

(** Every status outside 400-599 counts as a success, the 300s and the
    100s among them: the body is converted and cleaned. *)
Theorem visit_webpage_converts_unless_error_status
        (url : pystr) (response : Response) (converted : pystr) :
  requests_get url = Return response ->
  is_error_status (status_code response) = false ->
  markdownify (text response) = Return converted ->
  visit url = Return (Re.sub newline_runs [nl; nl] (strip converted)).
Proof.
  intros G S M. unfold visit_webpage, visit_webpage_try.
  rewrite G; simpl bind. rewrite raise_for_status_outcome, S; simpl bind.
  now rewrite M.
Qed.

(** A response with a status from 400 to 599 is never converted: the
    result is the fetch error with the text of the [HTTPError],
    whatever the converter would have made of the body. *)
Theorem visit_webpage_error_status
        (url : pystr) (response : Response) :
  requests_get url = Return response ->
  is_error_status (status_code response) = true ->
  forall converter : pystr -> result pystr,
    visit_webpage requests_get converter url
    = Return (lit "Error fetching the webpage: " ++ http_error_text response).
Proof.
  intros G S converter. unfold visit_webpage, visit_webpage_try.
  rewrite G; simpl bind. now rewrite raise_for_status_outcome, S.
Qed.

(** [visit_webpage] raises exactly when something that is not an
    [Exception] (a [KeyboardInterrupt], a [SystemExit]) is raised inside
    the [try] block, and then it raises that very exception. *)
Theorem visit_webpage_raises_iff (url : pystr) (e : exc) :
  visit url = Raise e
  <-> attempt url = Raise e /\ isinstance e Exception = false.
Proof.
  unfold visit_webpage. destruct (attempt url) as [s|e'] eqn:A; simpl.
  - split; [discriminate | intros [H _]; discriminate].
  - destruct (isinstance e' RequestException) eqn:R.
    + pose proof (request_exception_is_exception e' R) as E.
      split; [discriminate|]. intros [H1 H2]. inversion H1; subst. congruence.
    + destruct (isinstance e' Exception) eqn:E.
      * split; [discriminate|]. intros [H1 H2]. inversion H1; subst. congruence.
      * split; [intros H; inversion H; subst; auto | intros [H _]; exact H].
Qed.

(** The cleaning never adds anything and loses nothing but whitespace:
    the result of a successful fetch is no longer than the converted
    text and holds the same non-whitespace characters in the same
    order. *)
Theorem visit_webpage_keeps_content
        (url : pystr) (response : Response) (converted : pystr) :
  requests_get url = Return response ->
  is_error_status (status_code response) = false ->
  markdownify (text response) = Return converted ->
  exists out,
    visit url = Return out
    /\ filter nonspace out = filter nonspace converted
    /\ List.length out <= List.length converted.
Proof.
  intros G S M. eexists; split.
  - apply (visit_webpage_converts_unless_error_status url response converted G S M).
  - rewrite sub_newline_runs_collapse. split.
    + unfold collapse. now rewrite filter_nonspace_collapse, filter_nonspace_strip.
    + pose proof (length_collapse_from (strip converted) 0).
      pose proof (length_strip converted). unfold collapse. lia.
Qed.

End FetchMore.

(** What a successful fetch returned is clean: a page whose converted
    text is that result comes back as it is. *)
Theorem visit_webpage_result_is_clean
        (get get' : pystr -> result Response)
        (convert convert' : pystr -> result pystr)
        (url url' out : pystr) (response' : Response) :
  visit_webpage_try get convert url = Return out ->
  get' url' = Return response' ->
  is_error_status (status_code response') = false ->
  convert' (text response') = Return out ->
  visit_webpage get' convert' url' = Return out.
Proof.
  intros A G S M.
  rewrite (visit_webpage_converts_unless_error_status get' convert' url'
             response' out G S M).
  unfold visit_webpage_try in A.
  destruct (get url) as [r|]; [|discriminate]. simpl in A.
  destruct (raise_for_status r); [|discriminate]. simpl in A.
  destruct (convert (text r)) as [c|]; [|discriminate]. simpl in A.
  inversion A as [E]. rewrite !sub_newline_runs_collapse.
  rewrite (collapse_keeps_stripped (strip c));
    [| apply strip_breaks | apply strip_breaks].
  unfold collapse. now rewrite collapse_from_idempotent.
Qed.

Lemma visit_webpage_converts_unless_error_status_witness :
  visit_webpage (get_with_status 304 (lit "Not Modified") (lit "  old text "))
    convert_text (lit "http://a.example/")
  = Return (lit "old text").
Proof.
  exact (visit_webpage_converts_unless_error_status
           (get_with_status 304 (lit "Not Modified") (lit "  old text "))
           convert_text (lit "http://a.example/")
           (mk_response 304 (lit "Not Modified") (lit "http://a.example/")
              (lit "  old text "))
           (lit "  old text ") eq_refl eq_refl eq_refl).
Defined.

Lemma visit_webpage_error_status_witness :
  visit_webpage (get_with_status 503 (lit "Service Unavailable") (lit "<p>busy</p>"))
    convert_text (lit "http://a.example/")
  = Return (lit "Error fetching the webpage: 503 Server Error: Service Unavailable for url: http://a.example/").
Proof.
  exact (visit_webpage_error_status
           (get_with_status 503 (lit "Service Unavailable") (lit "<p>busy</p>"))
           (lit "http://a.example/")
           (mk_response 503 (lit "Service Unavailable")
              (lit "http://a.example/") (lit "<p>busy</p>"))
           eq_refl eq_refl convert_text).
Defined.

Lemma visit_webpage_keeps_content_witness :
  exists out,
    visit_webpage (get_page [32; 97; nl; nl; nl; 98; nl]%N) convert_text
      (lit "http://a.example/") = Return out
    /\ filter nonspace out = filter nonspace [32; 97; nl; nl; nl; 98; nl]%N
    /\ List.length out <= List.length [32; 97; nl; nl; nl; 98; nl]%N.
Proof.
  exact (visit_webpage_keeps_content
           (get_page [32; 97; nl; nl; nl; 98; nl]%N) convert_text
           (lit "http://a.example/")
           (mk_response 200 (lit "OK") (lit "http://a.example/")
              [32; 97; nl; nl; nl; 98; nl]%N)
           [32; 97; nl; nl; nl; 98; nl]%N eq_refl eq_refl eq_refl).
Defined.

Lemma visit_webpage_result_is_clean_witness :
  visit_webpage (get_page [97; nl; nl; 98]%N) convert_text
    (lit "http://b.example/")
  = Return [97; nl; nl; 98]%N.
Proof.
  exact (visit_webpage_result_is_clean
           (get_page [32; 97; nl; nl; nl; 98; nl]%N)
           (get_page [97; nl; nl; 98]%N) convert_text convert_text
           (lit "http://a.example/") (lit "http://b.example/")
           [97; nl; nl; 98]%N
           (mk_response 200 (lit "OK") (lit "http://b.example/")
              [97; nl; nl; 98]%N)
           eq_refl eq_refl eq_refl eq_refl).
Defined.

(** ** More on the formatter *)

Section FormatterMore.

Variable str_title : pystr -> pystr.

Local Notation "'format'" := (format_agent_response str_title).

Lemma join_from_not_str (sep : pystr) (parts : list pyatom) (i : nat) :
  forallb is_str parts = false ->
  exists m, join_from i sep parts = Raise (mk_exc TypeError m).
Proof.
  revert i; induction parts as [|a parts IH]; intros i H; [discriminate|].
  destruct a; simpl in *; try (eexists; reflexivity).
  destruct (IH (S i) H) as [m E]. rewrite E. now exists m.
Qed.

Lemma section_atoms_is_str (items : list (pyatom * pyatom))
      (nh : pystr * pystr) :
  forallb is_str (section_atoms items nh) = str_valued items (fst nh).
Proof.
  unfold section_atoms, str_valued.
  destruct (find _ items) as [[k v]|]; [|reflexivity].
  simpl. now destruct v.
Qed.

Lemma sections_is_str (items : list (pyatom * pyatom)) :
  forallb is_str (flat_map (section_atoms items) recognized_keys)
  = recognized_are_str items.
Proof.
  unfold recognized_are_str, recognized_keys. cbn [flat_map forallb].
  now rewrite !forallb_app, !section_atoms_is_str.
Qed.

Lemma returns_title (key : pyatom) :
  returns (title str_title key) = has_title key.
Proof.
  destruct key as [| | |s|o]; try reflexivity.
  simpl. now destruct (obj_title o).
Qed.

Lemma dump_items_refusal (items : list (pyatom * pyatom))
      (acc : list pyatom) :
  match first_refusal str_title items with
  | Some e =>
      dump_items str_title items acc = Raise e /\ dumpable items = false
  | None => dumpable items = true
  end.
Proof.
  revert acc; induction items as [|[k v] items IH]; intros acc;
    [reflexivity|].
  cbn [first_refusal dump_items dumpable forallb fst snd].
  rewrite <- returns_title.
  destruct (title str_title k) as [t|e]; [|now split].
  destruct (str v) as [x|e]; [|now split].
  cbn [bind returns andb].
  exact (IH ((acc ++ [AStr (lit "### " ++ t)]) ++ [AStr x])).
Qed.

(** Whether a mapping is formatted or makes the formatter raise, and
    what it raises. A document comes out exactly for the formattable
    mappings: strings under the recognized keys when there is one;
    otherwise keys whose [title()] returns and values whose [str()]
    returns. When a recognized key is there, what is raised is a
    [TypeError], by [join]. When none is, what is raised is the
    exception of the first [key.title()] or [str(value)] that raises,
    in the order of the items, and [join] adds none. *)
Theorem format_mapping_outcome (items : list (pyatom * pyatom)) :
  match format (Dict items) with
  | Return _ => formattable items = true
  | Raise e =>
      formattable items = false
      /\ if has_recognized items then exc_type e = TypeError
         else first_refusal str_title items = Some e
  end.
Proof.
  unfold formattable. destruct (has_recognized items) eqn:Hr.
  - destruct (recognized_are_str items) eqn:Hs.
    + now rewrite (format_recognized str_title items Hr Hs).
    + rewrite format_dict.
      pose proof (some_section items Hr) as Hne.
      rewrite <- sections_is_str in Hs.
      destruct (flat_map (section_atoms items) recognized_keys) as [|p ps];
        [congruence|].
      cbv beta iota delta [bind].
      destruct (join_from_not_str [nl; nl] (p :: ps) 0 Hs) as [m E].
      unfold join. rewrite E. now split.
  - pose proof (dump_items_refusal items [AStr (lit "## Results")]) as D.
    destruct (first_refusal str_title items) as [e|].
    + destruct D as [E Hd].
      rewrite format_dict, (no_sections items Hr), E. now split.
    + now rewrite (format_unrecognized str_title items Hr D).
Qed.

Lemma find_filter (A : Type) (p q : A -> bool) (l : list A) :
  (forall x, p x = true -> q x = true) ->
  find p (filter q l) = find p l.
Proof.
  intros H; induction l as [|x l IH]; [reflexivity|]. simpl.
  destruct (q x) eqn:Q; simpl.
  - now rewrite IH.
  - destruct (p x) eqn:P; [|exact IH]. apply H in P; congruence.
Qed.

Lemma section_atoms_filter (items : list (pyatom * pyatom))
      (nh : pystr * pystr) :
  In nh recognized_keys ->
  section_atoms (filter (fun kv => is_recognized_key (fst kv)) items) nh
  = section_atoms items nh.
Proof.
  intros Hin. unfold section_atoms. rewrite find_filter; [reflexivity|].
  intros x Hx. unfold is_recognized_key. apply existsb_exists.
  now exists nh.
Qed.

(** With one of the recognized keys in the mapping, every other item is
    left out of the document: the output is that of the mapping cut
    down to its recognized keys. *)
Theorem format_drops_other_keys (items : list (pyatom * pyatom)) :
  has_recognized items = true ->
  format (Dict (filter (fun kv => is_recognized_key (fst kv)) items))
  = format (Dict items).
Proof.
  intros Hr. rewrite !format_dict.
  pose proof (some_section items Hr) as Hne.
  unfold recognized_keys, flat_map in *.
  rewrite !section_atoms_filter by (simpl; tauto).
  now destruct (_ ++ _).
Qed.

End FormatterMore.

Lemma format_mapping_outcome_witness :
  format_agent_response title_ascii
    (Dict [(a_bytes (lit "b'raw key'") (lit "b'Raw Key'"), a_float (lit "1.5"));
           (AInt 1, ANone);
           (AStr (lit "n"), AInt 7)])
  = Raise (mk_exc AttributeError
             (lit "'int' object has no attribute 'title'")).
Proof.
  pose proof (format_mapping_outcome title_ascii
                [(a_bytes (lit "b'raw key'") (lit "b'Raw Key'"),
                  a_float (lit "1.5"));
                 (AInt 1, ANone);
                 (AStr (lit "n"), AInt 7)]) as H.
  destruct (format_agent_response title_ascii _) as [out|e].
  - discriminate H.
  - destruct H as [_ H]. injection H as H. now subst e.
Defined.

Lemma format_drops_other_keys_witness :
  format_agent_response title_ascii
    (Dict [(AStr (lit "answer"), AStr (lit "42"))])
  = format_agent_response title_ascii
      (Dict [(AStr (lit "confidence"), AInt 3);
             (AStr (lit "answer"), AStr (lit "42"));
             (AInt 7, ANone)]).
Proof.
  exact (format_drops_other_keys title_ascii
           [(AStr (lit "confidence"), AInt 3);
            (AStr (lit "answer"), AStr (lit "42"));
            (AInt 7, ANone)] eq_refl).
Defined.

(** ** More on the search history *)

Lemma submissions_cons (i : bool * pystr) (inputs : list (bool * pystr)) :
  submissions (i :: inputs)
  = if fst i && negb (PyStr.eqb (snd i) []) then snd i :: submissions inputs
    else submissions inputs.
Proof.
  unfold submissions; simpl.
  now destruct (fst i && negb (PyStr.eqb (snd i) [])).
Qed.

(** The history is never cut or reordered: after any further runs it is
    what it was, followed by the queries submitted since that it did
    not hold yet, each once, in the order of their first submission. *)
Theorem history_extends (inputs : list (bool * pystr)) (st : session_state) :
  history (fold_left rerun inputs st)
  = history st ++ first_occurrences (history st) (submissions inputs).
Proof.
  revert st; induction inputs as [|i inputs IH]; intros st.
  - simpl. now rewrite app_nil_r.
  - simpl fold_left. rewrite IH, history_rerun, submissions_cons.
    unfold appends.
    destruct (fst i && negb (PyStr.eqb (snd i) [])); simpl; [|reflexivity].
    destruct (mem (snd i) (history st)); simpl; [reflexivity|].
    now rewrite <- app_assoc.
Qed.

Lemma In_submissions (q : pystr) (inputs : list (bool * pystr)) :
  In q (submissions inputs) <-> submitted q inputs = true.
Proof.
  unfold submissions, submitted.
  rewrite in_map_iff, existsb_exists. split.
  - intros [i [E Hi]]. apply filter_In in Hi as [Hi Hc].
    exists i; split; [exact Hi|]. rewrite Hc; simpl.
    apply pystr_eqb_eq, E.
  - intros [i [Hi Hc]]. apply andb_true_iff in Hc as [Hc E].
    apply pystr_eqb_eq in E. exists i; split; [exact E|].
    apply filter_In; now split.
Qed.

(** The footer's "Searches today" counts the distinct queries submitted
    in the session, not the searches run: a query submitted again adds
    nothing to it. *)
Theorem searches_today_counts_distinct (inputs : list (bool * pystr)) :
  searches_today (run_session inputs)
  = List.length (nodup pystr_eq_dec (submissions inputs)).
Proof.
  unfold searches_today. apply Permutation_length, NoDup_Permutation.
  - apply fold_rerun_NoDup; constructor.
  - apply NoDup_nodup.
  - intros q. rewrite nodup_In, In_submissions.
    unfold run_session. rewrite In_fold_rerun. simpl.
    split; [intros [[]|H]; exact H | now right].
Qed.

(** The empty text is never recorded, whatever the widgets report. *)
Theorem history_never_holds_empty_query (inputs : list (bool * pystr)) :
  ~ In [] (history (run_session inputs)).
Proof.
  unfold run_session. rewrite In_fold_rerun. simpl.
  intros [[]|H]. unfold submitted in H. apply existsb_exists in H.
  destruct H as [i [_ H]]. apply andb_true_iff in H as [H E].
  apply andb_true_iff in H as [_ H].
  rewrite E in H. discriminate.
Qed.

Lemma In_last_five (q : pystr) (h : list pystr) :
  In q (last_five h) -> In q h.
Proof.
  unfold last_five. intros H. rewrite <- (firstn_skipn (List.length h - 5) h).
  apply in_or_app; now right.
Qed.

Lemma last_skipn_snoc (A : Type) (n : nat) (h : list A) (q d : A) :
  n <= List.length h -> last (skipn n (h ++ [q])) d = q.
Proof.
  intros Hn. rewrite skipn_app.
  replace (n - List.length h) with 0 by lia. simpl.
  apply last_last.
Qed.

(** The sidebar is drawn before the query is recorded, so it lags by
    one run: a query submitted for the first time is not among the
    entries shown in that run, and it is the last entry shown in the
    next one. *)
Theorem sidebar_lags_one_run (st : session_state) (query : pystr) :
  query <> [] -> ~ In query (history st) ->
  ~ In query (snd (sidebar st))
  /\ last (snd (sidebar (rerun st (true, query)))) [] = query.
Proof.
  intros Hq Hn. split.
  - destruct st as [[h|]]; unfold sidebar, history in *; simpl in *.
    + intros H; apply Hn, In_last_five, H.
    + intros H; exact H.
  - assert (E : history (rerun st (true, query)) = history st ++ [query]).
    { rewrite history_rerun. unfold appends; simpl.
      apply pystr_eqb_neq in Hq. rewrite Hq; simpl.
      destruct (mem query (history st)) eqn:M; [|reflexivity].
      apply mem_In in M; contradiction. }
    assert (S : forall s, snd (sidebar s) = last_five (history s)).
    { intros [[h|]]; reflexivity. }
    rewrite S, E. unfold last_five.
    apply last_skipn_snoc. rewrite length_app; simpl. lia.
Qed.

Lemma sidebar_lags_one_run_witness :
  ~ In (lit "coq") (snd (sidebar (mk_session (Some [lit "rust"]))))
  /\ last (snd (sidebar (rerun (mk_session (Some [lit "rust"]))
                           (true, lit "coq")))) [] = lit "coq".
Proof.
  apply (sidebar_lags_one_run (mk_session (Some [lit "rust"])) (lit "coq")).
  - discriminate.
  - simpl. intros [H|[]]; discriminate H.
Defined.

(** ** More on the sources *)

Lemma run_chr_inv (a : ascii) (s : pystr) (k : pystr -> option pystr)
      (x : pystr) :
  run (chr a) s k = Some x -> exists s', s = code a :: s' /\ k s' = Some x.
Proof.
  destruct s as [|c s]; simpl; [discriminate|].
  destruct (N.eqb (code a) c) eqn:E; [|discriminate].
  apply N.eqb_eq in E; subst c. intros H; now exists s.
Qed.

Lemma run_literal_inv (l : list ascii) (s : pystr)
      (k : pystr -> option pystr) (x : pystr) :
  run (literal l) s k = Some x ->
  exists s', s = map code l ++ s' /\ k s' = Some x.
Proof.
  revert s; induction l as [|a l IH]; intros s H.
  - now exists s.
  - cbn [literal run] in H. apply run_chr_inv in H as [s1 [-> H]].
    apply IH in H as [s' [-> H]]. now exists s'.
Qed.

Lemma url_loop_inv (s x : pystr) :
  rep_loop (run url_char) Some (List.length s) 1 s = Some x ->
  exists t, s = t ++ x /\ url_tail t = true /\ breaks url_class x = true.
Proof.
  destruct s as [|c s]; [discriminate|].
  cbn [List.length rep_loop pred].
  rewrite url_char_class by (apply rep_loop_accepting, accepting_Some).
  cbn [run]. destruct (url_class c) eqn:Hc; [|discriminate].
  rewrite (rep_loop_rest (run url_char) url_class Some url_char_class
             accepting_Some) by lia.
  simpl. intros H; inversion H; subst x.
  exists (c :: take_while url_class s). repeat split.
  - simpl. now rewrite take_drop_while.
  - simpl. now rewrite Hc, forallb_take_while.
  - apply breaks_drop_while.
Qed.

(** What a match of [url_pattern] looks like. *)
Lemma match_url_inv (s rest : pystr) :
  match_at url_pattern s = Some rest ->
  exists secure t,
    s = scheme secure ++ t ++ rest
    /\ url_tail t = true /\ breaks url_class rest = true.
Proof.
  unfold match_at, url_pattern. cbn [run]. intros H.
  apply run_literal_inv in H as [s1 [-> H]].
  assert (O : exists (secure : bool) (s2 : pystr),
             s1 = (if secure then [code "s"%char] else []) ++ s2
             /\ run (literal [":"; "/"; "/"]%char) s2
                  (fun s3 => rep_loop (run url_char) Some (List.length s3) 1 s3)
                = Some rest).
  { destruct (run (chr "s"%char) s1 _) as [y|] eqn:E.
    - inversion H; subst y. apply run_chr_inv in E as [s2 [-> E]].
      now exists true, s2.
    - now exists false, s1. }
  destruct O as [secure [s2 [-> O]]].
  apply run_literal_inv in O as [s3 [-> O]].
  apply url_loop_inv in O as [t [-> [Ht Hr]]].
  exists secure, t. split; [|now split].
  now destruct secure.
Qed.

(** Every entry of [findall] is the text of a match at some place. *)
Lemma findall_from_In (r : regex) (m s : pystr) (skip : nat) :
  In m (findall_from r s skip) ->
  exists lead s1 rest,
    s = lead ++ s1 /\ match_at r s1 = Some rest /\ m = matched s1 rest.
Proof.
  revert skip; induction s as [|c s IH]; intros skip H; [destruct H|].
  assert (Later : forall n, In m (findall_from r s n) ->
            exists lead s1 rest,
              c :: s = lead ++ s1 /\ match_at r s1 = Some rest
              /\ m = matched s1 rest).
  { intros n Hn. apply IH in Hn as [lead [s1 [rest [-> [M E]]]]].
    now exists (c :: lead), s1, rest. }
  cbn [findall_from] in H. destruct skip as [|n]; [|now apply (Later n)].
  destruct (match_at r (c :: s)) as [rest|] eqn:M; [|now apply (Later 0)].
  destruct (matched (c :: s) rest) as [|x l] eqn:E; [now apply (Later 0)|].
  destruct H as [H|H]; [|now apply (Later (List.length (x :: l) - 1))].
  exists [], (c :: s), rest. repeat split; [exact M | congruence].
Qed.

Lemma url_class_printable (c : N) :
  url_class c = true -> (33 <= c <= 122)%N.
Proof.
  unfold url_class, cls_alpha, cls_digit, cls_punct, cls_misc, either, range,
    one_of, code. cbn -[N.eqb N.leb].
  rewrite !orb_true_iff, !andb_true_iff, !N.leb_le, !N.eqb_eq. lia.
Qed.

Lemma url_class_nonspace (c : N) : url_class c = true -> nonspace c = true.
Proof.
  intros H. apply url_class_printable in H.
  unfold nonspace, isspace. apply negb_true_iff.
  rewrite !orb_false_iff, !andb_false_iff, !N.leb_gt, !N.eqb_neq. lia.
Qed.

(** Every source is a URL of the text, taken whole: it is ["http://"] or
    ["https://"] followed by one character or more of the pattern's
    classes, it stands in the text, what follows it there is the end of
    the text or a character outside the classes, and it holds no
    whitespace. *)
Theorem sources_are_urls (formatted_result u : pystr) :
  In u (sources formatted_result) ->
  exists secure t lead rest,
    u = scheme secure ++ t
    /\ url_tail t = true
    /\ formatted_result = lead ++ u ++ rest
    /\ breaks url_class rest = true
    /\ forallb nonspace u = true.
Proof.
  unfold sources, findall. intros H.
  apply findall_from_In in H as [lead [s1 [rest [-> [M E]]]]].
  apply match_url_inv in M as [secure [t [-> [Ht Hr]]]].
  rewrite app_assoc, matched_app in E. subst u.
  exists secure, t, lead, rest. repeat split; try assumption.
  - now rewrite <- app_assoc.
  - rewrite forallb_app. apply andb_true_iff; split.
    + now destruct secure.
    + destruct t as [|c t]; [discriminate|]. cbn [url_tail] in Ht.
      rewrite forallb_forall in *. intros x Hx.
      apply url_class_nonspace, Ht, Hx.
Qed.

Lemma sources_are_urls_witness :
  exists secure t lead rest,
    lit "https://a.example/x." = scheme secure ++ t
    /\ url_tail t = true
    /\ lit "See https://a.example/x. Done" = lead ++ lit "https://a.example/x." ++ rest
    /\ breaks url_class rest = true
    /\ forallb nonspace (lit "https://a.example/x.") = true.
Proof.
  apply (sources_are_urls (lit "See https://a.example/x. Done")
           (lit "https://a.example/x.")).
  left. reflexivity.
Defined.

(** A result that nowhere holds ["http"] has no sources. *)
Theorem no_http_no_sources (formatted_result : pystr) :
  contains (lit "http") formatted_result = false ->
  sources formatted_result = [].
Proof.
  intros H. destruct (sources formatted_result) as [|u l] eqn:E;
    [reflexivity|].
  destruct (sources_are_urls formatted_result u) as
    [secure [t [lead [rest [-> [_ [F _]]]]]]]; [rewrite E; now left|].
  rewrite F in H. rewrite contains_app_r in H; [discriminate|].
  apply contains_here. now destruct secure.
Qed.

Lemma no_http_no_sources_witness :
  sources (lit "## Answer: the hypothesis holds, see ftp://a.example") = [].
Proof.
  apply (no_http_no_sources
           (lit "## Answer: the hypothesis holds, see ftp://a.example")).
  reflexivity.
Defined.

(** ** The sources tab *)

(** The preview shows the content whole when it has at most 1000
    characters; otherwise it shows the first 1000 characters of the
    content followed by three dots, and then the notice. What is shown
    first never has more than 1003 characters and always starts as the
    content does. *)
Theorem content_preview_bounded (content : pystr) :
  exists shown rest,
    content_preview content = shown :: rest
    /\ List.length shown <= preview_length + 3
    /\ firstn preview_length shown = firstn preview_length content
    /\ (List.length content <= preview_length ->
        shown = content /\ rest = [])
    /\ (preview_length < List.length content ->
        shown = firstn preview_length content ++ lit "..."
        /\ skipn preview_length shown = lit "..."
        /\ List.length shown = preview_length + 3
        /\ rest = [truncation_notice]).
Proof.
  unfold content_preview. generalize preview_length as n; intros n.
  destruct (Nat.ltb n (List.length content)) eqn:L.
  - apply Nat.ltb_lt in L.
    exists (firstn n content ++ lit "..."), [truncation_notice].
    assert (Hl : List.length (firstn n content) = n)
      by (rewrite length_firstn; lia).
    split; [reflexivity|]. split; [|split; [|split]].
    + rewrite length_app, Hl. simpl. lia.
    + rewrite firstn_app, Hl, Nat.sub_diag, firstn_O, app_nil_r.
      apply firstn_all2. lia.
    + lia.
    + intros _. split; [reflexivity|]. split; [|split].
      * rewrite skipn_app, Hl, Nat.sub_diag.
        rewrite skipn_all2 by lia. reflexivity.
      * rewrite length_app, Hl. reflexivity.
      * reflexivity.
  - apply Nat.ltb_ge in L. exists content, [].
    split; [reflexivity|]. split; [lia|]. split; [reflexivity|].
    split; [now split | lia].
Qed.

Lemma content_preview_bounded_witness :
  content_preview (repeat 97%N 1001)
  = [repeat 97%N 1000 ++ lit "..."; truncation_notice].
Proof.
  destruct (content_preview_bounded (repeat 97%N 1001))
    as [shown [rest [E [_ [_ [_ H]]]]]].
  destruct H as [Hs [_ [_ Hr]]].
  - rewrite repeat_length. apply Nat.lt_succ_diag_r.
  - rewrite E, Hs, Hr. reflexivity.
Defined.

Lemma lit_inj (a b : string) : lit a = lit b -> a = b.
Proof.
  unfold lit. intros H.
  rewrite <- (string_of_list_ascii_of_string a),
          <- (string_of_list_ascii_of_string b).
  f_equal. revert H.
  generalize (list_ascii_of_string a) (list_ascii_of_string b).
  induction l as [|x l IH]; intros [|y l'] H; try discriminate;
    [reflexivity|].
  simpl in H. inversion H as [[Hx Hl]].
  f_equal; [|now apply IH].
  rewrite <- (ascii_N_embedding x), <- (ascii_N_embedding y). now f_equal.
Qed.

(** [str] of an [int] tells the integers apart. *)
Lemma str_int_inj (a b : Z) : str_int a = str_int b -> a = b.
Proof.
  unfold str_int. intros H. apply lit_inj in H.
  apply DecimalZ.to_int_inj.
  assert (P : forall z, Z.to_int z <> Decimal.Pos Decimal.Nil
                        /\ Z.to_int z <> Decimal.Neg Decimal.Nil).
  { intros [|p|p]; simpl; split; try discriminate;
      intros E; inversion E as [E'];
      now apply DecimalPos.Unsigned.to_uint_nonnil in E'. }
  pose proof (NilZero.isi (Z.to_int a) (proj1 (P a)) (proj2 (P a))) as Ea.
  pose proof (NilZero.isi (Z.to_int b) (proj1 (P b)) (proj2 (P b))) as Eb.
  rewrite H in Ea. congruence.
Qed.

Lemma source_file_name_inj (i j : nat) :
  source_file_name i = source_file_name j -> i = j.
Proof.
  unfold source_file_name. intros H.
  apply app_inv_head, app_inv_tail, str_int_inj in H. lia.
Qed.

Lemma enumerate_fst (A : Type) (l : list A) (start : nat) :
  map fst (enumerate start l) = seq start (List.length l).
Proof.
  revert start; induction l as [|x l IH]; intros start; simpl;
    [reflexivity | now rewrite IH].
Qed.

Lemma enumerate_snd (A : Type) (l : list A) (start : nat) :
  map snd (enumerate start l) = l.
Proof.
  revert start; induction l as [|x l IH]; intros start; simpl;
    [reflexivity | now rewrite IH].
Qed.

(** The panels of the sources tab are numbered from 1 in the order of
    the sources, and the files offered for download have different
    names, also where a source is listed twice. *)
Theorem source_panels_numbered (found : list pystr) :
  map fst (enumerate 1 found) = seq 1 (List.length found)
  /\ map snd (enumerate 1 found) = found
  /\ NoDup (map (fun p => source_file_name (fst p)) (enumerate 1 found)).
Proof.
  split; [apply enumerate_fst | split; [apply enumerate_snd|]].
  rewrite <- (map_map fst source_file_name), enumerate_fst.
  generalize 1 as start. induction found as [|x l IH]; intros start; simpl.
  - constructor.
  - constructor; [|apply IH].
    rewrite in_map_iff. intros [j [E Hj]].
    apply source_file_name_inj in E. apply in_seq in Hj. lia.
Qed.

(** ** The analysis tab *)

Lemma length_split_from (s : pystr) (skip : nat) (piece : pystr) :
  List.length (split_from (lit "##") s skip piece) = S (count_from s skip).
Proof.
  revert skip piece; induction s as [|c s IH]; intros skip piece;
    [reflexivity|].
  cbn [split_from count_from]. destruct skip as [|n]; [|apply IH].
  destruct (startswith (lit "##") (c :: s)); simpl; now rewrite IH.
Qed.

Lemma sections_metric_count (s : pystr) : sections_metric s = count_from s 0.
Proof.
  unfold sections_metric, split. rewrite length_split_from. simpl. lia.
Qed.

Lemma closed_cons (c c' : N) (s : pystr) :
  closed (c :: c' :: s) = closed (c' :: s).
Proof. reflexivity. Qed.

(** A scan that leaves [a] without a pending hash goes on in [b] as if
    it started there. *)
Lemma count_from_app (a b : pystr) :
  closed a = true ->
  forall skip,
    skip = 0 \/ (skip = 1 /\ exists a', a = hash :: a') ->
    count_from (a ++ b) skip = count_from a skip + count_from b 0.
Proof.
  induction a as [|c a IH]; intros Hc skip Hs.
  - destruct Hs as [->|[_ [a' E]]]; [reflexivity | discriminate].
  - destruct a as [|c' a].
    + (* the last character of [a] *)
      assert (Hh : N.eqb hash c = false)
        by (unfold closed in Hc; simpl in Hc; now apply negb_true_iff in Hc).
      destruct Hs as [->|[_ [a' E]]].
      * cbn [app count_from]. cbn [lit map list_ascii_of_string startswith].
        change (N_of_ascii "#") with hash. rewrite Hh. simpl.
        now destruct b.
      * inversion E; subst. now rewrite N.eqb_refl in Hh.
    + rewrite closed_cons in Hc. specialize (IH Hc).
      destruct Hs as [->|[-> [a' E]]].
      * change ((c :: c' :: a) ++ b) with (c :: (c' :: a) ++ b).
        cbn [count_from].
        change (startswith (lit "##") (c :: (c' :: a) ++ b))
          with (N.eqb hash c && (N.eqb hash c' && true)).
        change (startswith (lit "##") (c :: c' :: a))
          with (N.eqb hash c && (N.eqb hash c' && true)).
        destruct (N.eqb hash c); cbn [andb].
        -- destruct (N.eqb hash c') eqn:E'; cbn [andb].
           ++ apply N.eqb_eq in E'; subst c'.
              rewrite IH; [reflexivity | right; split; eauto].
           ++ rewrite IH; [reflexivity | now left].
        -- rewrite IH; [reflexivity | now left].
      * change ((c :: c' :: a) ++ b) with (c :: (c' :: a) ++ b).
        cbn [count_from]. apply IH. now left.
Qed.

Lemma count_app (a b : pystr) :
  closed a = true ->
  count_from (a ++ b) 0 = count_from a 0 + count_from b 0.
Proof. intros H; apply count_from_app; [exact H | now left]. Qed.

Lemma hash_free_count (s : pystr) : hash_free s = true -> count_from s 0 = 0.
Proof.
  induction s as [|c s IH]; [reflexivity|]. simpl.
  intros H. apply andb_true_iff in H as [Hc H].
  apply negb_true_iff in Hc. change (N_of_ascii "#") with hash.
  rewrite Hc. simpl. now apply IH.
Qed.

Lemma hash_free_closed (s : pystr) : hash_free s = true -> closed s = true.
Proof.
  unfold closed. induction s as [|c s IH]; [reflexivity|].
  simpl. intros H. apply andb_true_iff in H as [Hc H].
  destruct s as [|c' s]; [exact Hc | now apply IH].
Qed.

Lemma closed_app (a b : pystr) :
  b <> [] -> closed (a ++ b) = closed b.
Proof.
  intros Hb. unfold closed. f_equal. f_equal.
  induction a as [|c a IH]; [reflexivity|].
  simpl. destruct (a ++ b) eqn:E; [|exact IH].
  apply app_eq_nil in E as [_ E]. contradiction.
Qed.

Lemma join_strs_cons (sep x : pystr) (l : list pystr) :
  join_strs sep (x :: l) = x ++ flat_map (fun y => sep ++ y) l.
Proof.
  revert x; induction l as [|y l IH]; intros x.
  - simpl. now rewrite app_nil_r.
  - change (join_strs sep (x :: y :: l))
      with (x ++ sep ++ join_strs sep (y :: l)).
    rewrite IH. simpl. now rewrite <- app_assoc.
Qed.

(** In a document joined with blank lines the occurrences add up over
    the parts, as long as no part ends with a hash. *)
Lemma count_join (parts : list pystr) :
  forallb closed parts = true ->
  count_from (join_strs [nl; nl] parts) 0
  = list_sum (map (fun p => count_from p 0) parts).
Proof.
  destruct parts as [|x l]; [reflexivity|].
  rewrite join_strs_cons. simpl. intros H.
  apply andb_true_iff in H as [Hx Hl].
  rewrite (count_app _ _ Hx). f_equal.
  induction l as [|y l IH]; [reflexivity|].
  cbn [forallb] in Hl. apply andb_true_iff in Hl as [Hy Hl].
  cbn [flat_map map list_sum].
  change ((nl :: nl :: y) ++ flat_map (fun y0 : list N => nl :: nl :: y0) l)
    with ([nl; nl] ++ y ++ flat_map (fun y0 : list N => nl :: nl :: y0) l).
  rewrite (count_app [nl; nl]) by reflexivity.
  rewrite (count_app _ _ Hy), (IH Hl). reflexivity.
Qed.

Section SectionsMetric.

Variable str_title : pystr -> pystr.

Local Notation "'format'" := (format_agent_response str_title).
Local Notation "'weight'" := (fun p : pystr => count_from p 0).

Lemma headed_weight (items : list (pyatom * pyatom)) (nh : pystr * pystr) :
  In nh recognized_keys ->
  str_valued items (fst nh) = true ->
  forallb hash_free (match headed items nh with
                     | [_; s] => [s]
                     | _ => []
                     end) = true ->
  forallb closed (headed items nh) = true
  /\ list_sum (map weight (headed items nh))
     = if dict_contains items (fst nh) then 1 else 0.
Proof.
  intros Hin Hs Hf. rewrite dict_contains_find.
  unfold headed, str_valued in *.
  destruct (find _ items) as [[k v]|]; [|now split].
  destruct v as [| | |s|]; try discriminate.
  cbn [forallb] in Hf. apply andb_true_iff in Hf as [Hf _].
  cbn [forallb map list_sum].
  rewrite (hash_free_closed s Hf), (hash_free_count s Hf).
  destruct Hin as [<-|[<-|[<-|[]]]]; now split.
Qed.

(** For a mapping with recognized keys whose texts hold no hash, the
    "Sections" metric is the number of recognized keys it has. *)
Theorem sections_of_recognized (items : list (pyatom * pyatom)) :
  has_recognized items = true ->
  recognized_are_str items = true ->
  forallb hash_free (section_texts items) = true ->
  exists out,
    format (Dict items) = Return out
    /\ sections_metric out
       = List.length (filter (fun nh => dict_contains items (fst nh))
                             recognized_keys).
Proof.
  intros Hr Hs Hf. exists (fixed_order_document items).
  split; [now apply format_recognized|].
  rewrite sections_metric_count. unfold fixed_order_document.
  unfold recognized_are_str, section_texts, recognized_keys in *.
  cbn [flat_map forallb filter fst] in *.
  rewrite !forallb_app in Hf.
  apply andb_true_iff in Hs as [S1 Hs]. apply andb_true_iff in Hs as [S2 Hs].
  apply andb_true_iff in Hs as [S3 _].
  apply andb_true_iff in Hf as [F1 Hf]. apply andb_true_iff in Hf as [F2 Hf].
  apply andb_true_iff in Hf as [F3 _].
  destruct (headed_weight items (lit "thoughts", lit "## Thought Process"))
    as [C1 W1]; [simpl; tauto | exact S1 | exact F1 |].
  destruct (headed_weight items (lit "observations", lit "## Observations"))
    as [C2 W2]; [simpl; tauto | exact S2 | exact F2 |].
  destruct (headed_weight items (lit "answer", lit "## Answer"))
    as [C3 W3]; [simpl; tauto | exact S3 | exact F3 |].
  cbn [fst] in W1, W2, W3.
  rewrite count_join by (rewrite !forallb_app, C1, C2, C3; reflexivity).
  rewrite !map_app, !list_sum_app, W1, W2, W3. cbn [map list_sum].
  destruct (dict_contains items (lit "thoughts")),
           (dict_contains items (lit "observations")),
           (dict_contains items (lit "answer")); reflexivity.
Qed.

Lemma results_parts (items : list (pyatom * pyatom)) :
  forallb (fun kv => hash_free (text_of (title str_title (fst kv)))
                     && hash_free (text_of (str (snd kv)))) items = true ->
  forallb closed
    (flat_map (fun kv => [lit "### " ++ text_of (title str_title (fst kv));
                          text_of (str (snd kv))]) items) = true
  /\ list_sum
       (map weight
          (flat_map (fun kv => [lit "### " ++ text_of (title str_title (fst kv));
                                text_of (str (snd kv))]) items))
     = List.length items.
Proof.
  induction items as [|kv items IH]; intros H; [now split|].
  cbn [forallb] in H. apply andb_true_iff in H as [Hkv H].
  apply andb_true_iff in Hkv as [Ht Hv].
  destruct (IH H) as [C W]. cbn [flat_map app forallb map List.length].
  change (list_sum (?a :: ?b :: ?l)) with (a + (b + list_sum l)).
  rewrite C, W, (hash_free_closed _ Hv), (hash_free_count _ Hv).
  assert (Wt : count_from (lit "### " ++ text_of (title str_title (fst kv))) 0 = 1).
  { change (count_from (lit "### " ++ text_of (title str_title (fst kv))) 0)
      with (S (count_from (text_of (title str_title (fst kv))) 0)).
    now rewrite (hash_free_count _ Ht). }
  assert (Ct : closed (lit "### " ++ text_of (title str_title (fst kv))) = true).
  { destruct (text_of (title str_title (fst kv))) as [|c r] eqn:E; [reflexivity|].
    rewrite closed_app by discriminate. now apply hash_free_closed. }
  rewrite Wt, Ct. split; [reflexivity | lia].
Qed.

(** For a mapping without recognized keys, whose keys [title()] takes
    and whose values [str()] takes, with no hash in the title-cased
    keys and the stringified values, the "Sections" metric is one more
    than the number of its items: every ["### "] header counts as a
    section, like ["## Results"]. *)
Theorem sections_of_results (items : list (pyatom * pyatom)) :
  has_recognized items = false ->
  dumpable items = true ->
  forallb (fun kv => hash_free (text_of (title str_title (fst kv)))
                     && hash_free (text_of (str (snd kv)))) items = true ->
  exists out,
    format (Dict items) = Return out
    /\ sections_metric out = S (List.length items).
Proof.
  intros Hr Hk Hf. exists (results_document str_title items).
  split; [now apply format_unrecognized|].
  rewrite sections_metric_count. unfold results_document.
  destruct (results_parts items Hf) as [C W].
  rewrite count_join by (cbn [forallb]; now rewrite C).
  cbn [map]. change (list_sum (?a :: ?l)) with (a + list_sum l).
  now rewrite W.
Qed.

End SectionsMetric.

Lemma sections_of_recognized_witness :
  exists out,
    format_agent_response title_ascii
      (Dict [(AStr (lit "answer"), AStr (lit "42"));
             (AStr (lit "thoughts"), AStr (lit "hm"))]) = Return out
    /\ sections_metric out = 2.
Proof.
  exact (sections_of_recognized title_ascii
           [(AStr (lit "answer"), AStr (lit "42"));
            (AStr (lit "thoughts"), AStr (lit "hm"))]
           eq_refl eq_refl eq_refl).
Defined.

Lemma sections_of_results_witness :
  exists out,
    format_agent_response title_ascii
      (Dict [(AStr (lit "first key"), AInt 7); (AStr (lit "b"), ANone)])
    = Return out
    /\ sections_metric out = 3.
Proof.
  exact (sections_of_results title_ascii
           [(AStr (lit "first key"), AInt 7); (AStr (lit "b"), ANone)]
           eq_refl eq_refl eq_refl).
Defined.

(** ** The search block *)

Lemma bind_ui_run (A B : Type) (m : ui A) (k : A -> ui B) (w w' : world)
      (a : A) :
  m w = (Return a, w') -> bind_ui m k w = k a w'.
Proof. unfold bind_ui; now intros ->. Qed.

Lemma bind_ui_raise (A B : Type) (m : ui A) (k : A -> ui B) (w w' : world)
      (e : exc) :
  m w = (Raise e, w') -> bind_ui m k w = (Raise e, w').
Proof. unfold bind_ui; now intros ->. Qed.

Lemma within_run (A : Type) (c : container) (body : ui A) (w w1 : world)
      (r : result A) :
  body (blank w) = (r, w1) ->
  within c body w
  = (r, mk_world (page w ++ [Within c (page w1)]) (sources_var w1)
                 (cache w1) (fetched w1) (session w1)).
Proof. unfold within, blank; now intros ->. Qed.

Lemma draws_ret : draws (ret tt) [].
Proof. intros [p s c f ss]; unfold ret, draw; simpl. now rewrite app_nil_r. Qed.

Lemma draws_emit (e : element) : draws (emit e) [e].
Proof. intros w; reflexivity. Qed.

Lemma draws_then (m k : ui unit) (l1 l2 : list element) :
  draws m l1 -> draws k l2 -> draws (bind_ui m (fun _ => k)) (l1 ++ l2).
Proof.
  intros H1 H2 w. rewrite (bind_ui_run _ _ _ _ _ _ _ (H1 w)), H2.
  unfold draw; simpl. now rewrite app_assoc.
Qed.

Lemma draws_emit_then (e : element) (k : ui unit) (l : list element) :
  draws k l -> draws (bind_ui (emit e) (fun _ => k)) (e :: l).
Proof. intros H; apply (draws_then (emit e) k [e] l (draws_emit e) H). Qed.

Lemma draws_within (c : container) (m : ui unit) (l : list element) :
  draws m l -> draws (within c m) [Within c l].
Proof.
  intros H w. rewrite (within_run _ c m w _ _ (H (blank w))). reflexivity.
Qed.

Lemma draws_within_then (c : container) (m k : ui unit)
      (l rest : list element) :
  draws m l -> draws k rest ->
  draws (bind_ui (within c m) (fun _ => k)) (Within c l :: rest).
Proof.
  intros H1 H2.
  apply (draws_then (within c m) k [Within c l] rest
           (draws_within c m l H1) H2).
Qed.

Lemma draws_markdowns (l : list pystr) :
  draws (for_each l (fun t => emit (Markdown t))) (map Markdown l).
Proof.
  induction l as [|t l IH]; [apply draws_ret|].
  cbn [for_each map]. now apply draws_emit_then.
Qed.

Lemma draws_analysis_tab (found : list pystr) (formatted : pystr) :
  draws (analysis_tab found formatted) [analysis_elements found formatted].
Proof.
  unfold analysis_tab, analysis_elements. apply draws_within.
  do 2 apply draws_emit_then.
  do 2 (apply draws_within_then; [apply draws_emit|]).
  apply draws_within, draws_emit.
Qed.

Section SearchFacts.

Variable manager_agent_run : pystr -> result pyval.
Variable json_dumps : pyval -> result pystr.
Variable requests_get : pystr -> result Response.
Variable markdownify : pystr -> result pystr.
Variable str_title : pystr -> pystr.

Local Notation "'block'" :=
  (search_block manager_agent_run json_dumps requests_get markdownify
                str_title).
Local Notation "'attempt'" :=
  (search_try manager_agent_run json_dumps requests_get markdownify
              str_title).
Local Notation "'fetch'" := (fetch_webpage_content requests_get markdownify).
Local Notation "'visit'" := (visit_webpage requests_get markdownify).

(** The block around the statements under [try:]. *)
Lemma block_run (query : pystr) (w w1 : world) (r : result unit) :
  query <> [] ->
  try_ui (attempt query)
         (fun e => emit (Error (error_banner e)) ;;; emit (Markdown retry_tips))
         (mk_world [] (sources_var w) (cache w) (fetched w)
                   (record_query true query (session w)))
  = (r, w1) ->
  block true query w
  = (r, mk_world
          (page w
           ++ [Within (Spinner (emoji_detective ++ lit " Researching..."))
                 (page w1)])
          (sources_var w1) (cache w1) (fetched w1) (session w1)).
Proof.
  intros Hq H. apply pystr_eqb_neq in Hq.
  unfold search_block. rewrite Hq. cbn [andb negb].
  rewrite (bind_ui_run _ _ (update_session (record_query true query)) _ w
             (mk_world (page w) (sources_var w) (cache w) (fetched w)
                       (record_query true query (session w))) tt eq_refl).
  exact (within_run _ _ _
           (mk_world (page w) (sources_var w) (cache w) (fetched w)
                     (record_query true query (session w)))
           w1 r H).
Qed.

Lemma draws_result_tab (raw : pyval) (formatted : pystr) :
  (forall items, raw = Dict items -> exists data, json_dumps raw = Return data) ->
  exists json,
    draws (result_tab json_dumps raw formatted)
          [result_elements formatted json].
Proof.
  intros J.
  assert (C2 : exists json,
             draws (match raw with
                    | Dict _ =>
                        data <~ lift (json_dumps raw) ;;
                        emit (DownloadButton
                                (emoji_inbox ++ lit " Download Raw JSON")
                                data (lit "research_results.json")
                                (lit "application/json"))
                    | Atom _ => ret tt
                    end)
                   (match json with
                    | Some data =>
                        [DownloadButton
                           (emoji_inbox ++ lit " Download Raw JSON")
                           data (lit "research_results.json")
                           (lit "application/json")]
                    | None => []
                    end)).
  { destruct raw as [a|items].
    - exists None. apply draws_ret.
    - destruct (J items eq_refl) as [data D]. exists (Some data).
      intros w. rewrite (bind_ui_run _ _ _ _ w w data); [apply draws_emit|].
      unfold lift. now rewrite D. }
  destruct C2 as [json C2]. exists json.
  unfold result_tab, result_elements. apply draws_within.
  do 3 apply draws_emit_then.
  apply draws_within_then; [apply draws_emit|].
  apply draws_within, C2.
Qed.

(** When the agent or the formatter raises an [Exception], the block
    ends normally with the error banner and the tips under the empty
    tabs, and nothing else: no result, no fetch, [sources] left
    unbound. The query is in the history all the same, as it was
    recorded before the agent ran. *)
Theorem search_failure_shows_banner (query : pystr) (e : exc) (w : world) :
  query <> [] ->
  (raw <- manager_agent_run query ;; format_agent_response str_title raw)
  = Raise e ->
  isinstance e Exception = true ->
  block true query w
  = (Return tt,
     mk_world
       (page w
        ++ [Within (Spinner (emoji_detective ++ lit " Researching..."))
              [Tabs tab_labels; Error (error_banner e); Markdown retry_tips]])
       (sources_var w) (cache w) (fetched w)
       (record_query true query (session w)))
  /\ In query (history (record_query true query (session w))).
Proof.
  intros Hq H He. split.
  - apply (block_run query w
             (mk_world [Tabs tab_labels; Error (error_banner e);
                        Markdown retry_tips]
                       (sources_var w) (cache w) (fetched w)
                       (record_query true query (session w)))
             (Return tt) Hq).
    unfold try_ui, search_try.
    rewrite (bind_ui_run _ _ (emit (Tabs tab_labels)) _ _ _ tt eq_refl).
    assert (R : forall w0,
               (raw_result <~ lift (manager_agent_run query) ;;
                formatted_result <~
                  lift (format_agent_response str_title raw_result) ;;
                set_sources (sources formatted_result) ;;;
                result_tab json_dumps raw_result formatted_result ;;;
                sources_tab requests_get markdownify
                  (sources formatted_result) ;;;
                analysis_tab (sources formatted_result) formatted_result) w0
               = (Raise e, w0)).
    { intros w0. destruct (manager_agent_run query) as [raw|e'] eqn:A;
        cbn [bind] in H.
      - rewrite (bind_ui_run _ _ _ _ w0 w0 raw eq_refl).
        apply bind_ui_raise. unfold lift. now rewrite H.
      - inversion H; subst e'. now apply bind_ui_raise. }
    rewrite R, He. reflexivity.
  - apply pystr_eqb_neq in Hq.
    unfold record_query. rewrite Hq. cbn [andb negb].
    destruct (mem query (history (session w))) eqn:M; cbn [negb].
    + now apply mem_In.
    + unfold history at 1; cbn. apply in_or_app; right; now left.
Qed.

(** When the JSON text of a mapping cannot be produced, the result is
    on the page already: the results tab holds the formatted text and
    its download button, then come the error banner and the tips. The
    sources and the analysis tabs stay empty and nothing is fetched,
    while [sources] is bound already. *)
Theorem json_failure_keeps_result
        (query : pystr) (items : list (pyatom * pyatom))
        (formatted : pystr) (e : exc) (w : world) :
  query <> [] ->
  manager_agent_run query = Return (Dict items) ->
  format_agent_response str_title (Dict items) = Return formatted ->
  json_dumps (Dict items) = Raise e ->
  isinstance e Exception = true ->
  block true query w
  = (Return tt,
     mk_world
       (page w
        ++ [Within (Spinner (emoji_detective ++ lit " Researching..."))
              [Tabs tab_labels;
               result_elements formatted None;
               Error (error_banner e);
               Markdown retry_tips]])
       (Some (sources formatted)) (cache w) (fetched w)
       (record_query true query (session w))).
Proof.
  intros Hq A F J He.
  apply (block_run query w
           (mk_world [Tabs tab_labels; result_elements formatted None;
                      Error (error_banner e); Markdown retry_tips]
                     (Some (sources formatted)) (cache w) (fetched w)
                     (record_query true query (session w)))
           (Return tt) Hq).
  unfold try_ui, search_try.
  rewrite (bind_ui_run _ _ (emit (Tabs tab_labels)) _ _ _ tt eq_refl).
  rewrite (bind_ui_run _ _ (lift (manager_agent_run query)) _ _ _
             (Dict items)) by (unfold lift; now rewrite A).
  rewrite (bind_ui_run _ _ (lift (format_agent_response str_title (Dict items)))
             _ _ _ formatted) by (unfold lift; now rewrite F).
  rewrite (bind_ui_run _ _ (set_sources (sources formatted)) _ _ _ tt eq_refl).
  set (w0 := mk_world [Tabs tab_labels] (Some (sources formatted)) (cache w)
                      (fetched w) (record_query true query (session w))).
  assert (R : result_tab json_dumps (Dict items) formatted w0
              = (Raise e,
                 mk_world [Tabs tab_labels; result_elements formatted None]
                          (Some (sources formatted)) (cache w) (fetched w)
                          (record_query true query (session w)))).
  { unfold result_tab.
    apply (within_run _ _ _ w0
             (mk_world
                [Markdown (lit "### " ++ emoji_chart ++ lit " Research Results");
                 Markdown formatted; Columns [1; 1];
                 Within (Column 1)
                   [DownloadButton (emoji_inbox ++ lit " Download Results")
                      formatted (lit "research_results.md")
                      (lit "text/markdown")];
                 Within (Column 2) []]
                (Some (sources formatted)) (cache w) (fetched w)
                (record_query true query (session w)))).
    do 3 (rewrite (bind_ui_run _ _ (emit _) _ _ _ tt eq_refl)).
    rewrite (bind_ui_run _ _ _ _ _ _ tt
               (draws_within (Column 1) _ _ (draws_emit _) _)).
    match goal with
    | |- within _ ?body ?W = _ =>
        assert (B : body (blank W) = (Raise e, blank W))
          by (apply bind_ui_raise; unfold lift; now rewrite J);
        rewrite (within_run _ (Column 2) body W _ _ B)
    end.
    reflexivity. }
  rewrite (bind_ui_raise _ _ _ _ _ _ _ R), He. reflexivity.
Qed.

Lemma pystr_eqb_sym (a b : pystr) : PyStr.eqb a b = PyStr.eqb b a.
Proof.
  destruct (PyStr.eqb a b) eqn:E.
  - apply pystr_eqb_eq in E; subst. symmetry; apply pystr_eqb_refl.
  - destruct (PyStr.eqb b a) eqn:E'; [|reflexivity].
    apply pystr_eqb_eq in E'; subst. now rewrite pystr_eqb_refl in E.
Qed.

Lemma mem_keys (url : pystr) (c : list (pystr * pystr)) :
  mem url (map fst c)
  = match cache_lookup url c with Some _ => true | None => false end.
Proof.
  unfold mem, cache_lookup. induction c as [|kv c IH]; [reflexivity|].
  simpl. rewrite (pystr_eqb_sym url (fst kv)).
  destruct (PyStr.eqb (fst kv) url); simpl; [reflexivity | exact IH].
Qed.

Lemma first_occurrences_ext (qs seen seen' : list pystr) :
  (forall q, mem q seen = mem q seen') ->
  first_occurrences seen qs = first_occurrences seen' qs.
Proof.
  revert seen seen'; induction qs as [|q qs IH]; intros seen seen' H;
    [reflexivity|].
  simpl. rewrite <- (H q). destruct (mem q seen); [now apply IH|].
  f_equal. apply IH. intros x. unfold mem.
  now rewrite !existsb_app, (H x : existsb _ seen = existsb _ seen').
Qed.

Hypothesis visit_returns : forall url, exists content, visit url = Return content.

(** One call of the cached fetch: the content comes from the cache, or
    the page is fetched and its content stored. *)
Lemma fetch_outcome (url : pystr) (w : world) :
  exists content c' f',
    fetch url w
    = (Return content,
       mk_world (page w) (sources_var w) c' f' (session w))
    /\ f' = fetched w ++ first_occurrences (map fst (cache w)) [url]
    /\ (forall q, mem q (map fst c') = mem q (map fst (cache w) ++ [url])).
Proof.
  unfold fetch_webpage_content. cbn [first_occurrences].
  rewrite mem_keys.
  destruct (cache_lookup url (cache w)) as [content|] eqn:L.
  - exists content, (cache w), (fetched w). repeat split.
    + now destruct w.
    + now rewrite app_nil_r.
    + intros q. unfold mem. rewrite existsb_app. simpl.
      rewrite orb_false_r.
      destruct (PyStr.eqb q url) eqn:E; [|now rewrite orb_false_r].
      apply pystr_eqb_eq in E; subst q. rewrite orb_true_r.
      change (existsb (PyStr.eqb url) (map fst (cache w)))
        with (mem url (map fst (cache w))).
      now rewrite mem_keys, L.
  - destruct (visit_returns url) as [content V]. rewrite V.
    exists content, ((url, content) :: cache w), (fetched w ++ [url]).
    repeat split. intros q. unfold mem. rewrite existsb_app. simpl.
    rewrite orb_false_r. apply orb_comm.
Qed.

Lemma draws_panel_rest (idx : nat) (source content : pystr) :
  draws
    (emit (Columns [3; 1]) ;;;
     within (Column 1) (emit (Markdown (url_line source))) ;;;
     within (Column 2)
       (emit (DownloadButton (emoji_inbox ++ lit " Download Source")
                content (source_file_name idx) (lit "text/markdown"))) ;;;
     emit (Markdown (lit "---")) ;;;
     emit (Markdown (lit "### Content Preview")) ;;;
     for_each (content_preview content) (fun t => emit (Markdown t)))
    ([Columns [3; 1];
      Within (Column 1) [Markdown (url_line source)];
      Within (Column 2)
        [DownloadButton (emoji_inbox ++ lit " Download Source")
           content (source_file_name idx) (lit "text/markdown")];
      Markdown (lit "---");
      Markdown (lit "### Content Preview")]
     ++ map Markdown (content_preview content)).
Proof.
  cbn [app]. apply draws_emit_then.
  do 2 (apply draws_within_then; [apply draws_emit|]).
  do 2 apply draws_emit_then. apply draws_markdowns.
Qed.

Lemma source_panel_outcome (idx : nat) (source : pystr) (w : world) :
  exists content c' f',
    source_panel requests_get markdownify idx source w
    = (Return tt,
       mk_world (page w ++ [panel_elements idx source content])
                (sources_var w) c' f' (session w))
    /\ f' = fetched w ++ first_occurrences (map fst (cache w)) [source]
    /\ (forall q, mem q (map fst c') = mem q (map fst (cache w) ++ [source])).
Proof.
  destruct (fetch_outcome source (blank (blank w)))
    as [content [c' [f' [F [Hf Hc]]]]].
  exists content, c', f'. split; [|now split].
  unfold source_panel, panel_elements.
  set (L := [Columns [3; 1];
             Within (Column 1) [Markdown (url_line source)];
             Within (Column 2)
               [DownloadButton (emoji_inbox ++ lit " Download Source")
                  content (source_file_name idx) (lit "text/markdown")];
             Markdown (lit "---");
             Markdown (lit "### Content Preview")]
            ++ map Markdown (content_preview content)).
  apply (within_run _ _ _ w
           (mk_world [Within (Spinner (loading_text idx)) L]
                     (sources_var w) c' f' (session w))).
  apply (within_run _ _ _ (blank w)
           (mk_world L (sources_var w) c' f' (session w))).
  rewrite (bind_ui_run _ _ _ _ _ _ _ F).
  apply (draws_panel_rest idx source content).
Qed.

(** The panels of all the sources, drawn one after the other. *)
Lemma panels_outcome (found : list pystr) (idx : nat) (w : world) :
  exists panels c' f',
    for_each (enumerate idx found)
             (fun p => source_panel requests_get markdownify (fst p) (snd p)) w
    = (Return tt,
       mk_world (page w ++ panels) (sources_var w) c' f' (session w))
    /\ Forall2 (fun p el => exists content,
                  el = panel_elements (fst p) (snd p) content)
               (enumerate idx found) panels
    /\ f' = fetched w ++ first_occurrences (map fst (cache w)) found
    /\ (forall q, mem q (map fst c') = mem q (map fst (cache w) ++ found)).
Proof.
  revert idx w; induction found as [|u found IH]; intros idx w.
  - exists [], (cache w), (fetched w). simpl. unfold ret.
    rewrite !app_nil_r. repeat split; [now destruct w | constructor].
  - destruct (source_panel_outcome idx u w)
      as [content [c1 [f1 [P [Hf1 Hc1]]]]].
    destruct (IH (S idx)
                (mk_world (page w ++ [panel_elements idx u content])
                          (sources_var w) c1 f1 (session w)))
      as [panels [c' [f' [R [Hp [Hf Hc]]]]]].
    cbn [page sources_var cache fetched session] in R, Hf, Hc.
    exists (panel_elements idx u content :: panels), c', f'.
    repeat split.
    + cbn [enumerate for_each fst snd].
      rewrite (bind_ui_run _ _ _ _ _ _ _ P), R. now rewrite <- app_assoc.
    + constructor; [now exists content | exact Hp].
    + rewrite Hf, Hf1. cbn [first_occurrences].
      destruct (mem u (map fst (cache w))) eqn:M.
      * rewrite app_nil_r. f_equal. apply first_occurrences_ext.
        intros q. rewrite Hc1. unfold mem. rewrite existsb_app. simpl.
        rewrite orb_false_r.
        destruct (PyStr.eqb q u) eqn:E; [|now rewrite orb_false_r].
        apply pystr_eqb_eq in E; subst q. rewrite orb_true_r.
        symmetry; exact M.
      * rewrite <- app_assoc. cbn [app]. do 2 f_equal.
        apply first_occurrences_ext. exact Hc1.
    + intros q. rewrite Hc. unfold mem. rewrite !existsb_app.
      change (existsb (PyStr.eqb q) (map fst c1)) with (mem q (map fst c1)).
      rewrite Hc1. unfold mem. rewrite existsb_app. simpl.
      now rewrite orb_false_r, orb_assoc.
Qed.

Lemma banners_markdown (l : list pystr) :
  flat_map banners (map Markdown l) = [].
Proof. induction l as [|x l IH]; [reflexivity | exact IH]. Qed.

Lemma expanders_markdown (l : list pystr) :
  flat_map expander_labels (map Markdown l) = [].
Proof. induction l as [|x l IH]; [reflexivity | exact IH]. Qed.

Lemma panel_banners (idx : nat) (source content : pystr) :
  banners (panel_elements idx source content) = [].
Proof.
  unfold panel_elements. cbn [banners flat_map app].
  now rewrite banners_markdown.
Qed.

Lemma panel_expanders (idx : nat) (source content : pystr) :
  expander_labels (panel_elements idx source content)
  = [expander_label idx source].
Proof.
  unfold panel_elements. cbn [expander_labels flat_map app].
  now rewrite expanders_markdown.
Qed.

Lemma panels_drawn (l : list (nat * pystr)) (panels : list element) :
  Forall2 (fun p el => exists content,
             el = panel_elements (fst p) (snd p) content) l panels ->
  flat_map banners panels = []
  /\ flat_map expander_labels panels
     = map (fun p => expander_label (fst p) (snd p)) l.
Proof.
  induction 1 as [|p el l panels [content ->] _ [IHb IHe]]; [now split|].
  cbn [flat_map map]. rewrite panel_banners, panel_expanders, IHb, IHe.
  now split.
Qed.

Lemma sources_tab_outcome (found : list pystr) (w : world) :
  exists el c' f',
    sources_tab requests_get markdownify found w
    = (Return tt,
       mk_world (page w ++ [el]) (sources_var w) c' f' (session w))
    /\ banners el = []
    /\ expander_labels el
       = map (fun p => expander_label (fst p) (snd p)) (enumerate 1 found)
    /\ f' = fetched w ++ first_occurrences (map fst (cache w)) found
    /\ (forall q, mem q (map fst c') = mem q (map fst (cache w) ++ found)).
Proof.
  set (header := Markdown (lit "### " ++ emoji_books
                           ++ lit " Sources Referenced")).
  destruct found as [|u found].
  - exists (Within (Tab (emoji_link ++ lit " Sources"))
              [header;
               Info (lit "No external sources were referenced in this search.")]),
      (cache w), (fetched w).
    split; [|split; [|split; [|split]]].
    + apply (draws_within _ _ _
               (draws_emit_then _ _ _ (draws_emit _)) w).
    + reflexivity.
    + reflexivity.
    + cbn [first_occurrences]. now rewrite app_nil_r.
    + intros q. now rewrite app_nil_r.
  - destruct (panels_outcome (u :: found) 1
                (mk_world [header] (sources_var w) (cache w) (fetched w)
                          (session w)))
      as [panels [c' [f' [R [Hp [Hf Hc]]]]]].
    cbn [page sources_var cache fetched session] in R, Hf, Hc.
    destruct (panels_drawn _ _ Hp) as [Pb Pe].
    exists (Within (Tab (emoji_link ++ lit " Sources")) ([header] ++ panels)),
      c', f'.
    split; [|split; [|split; [|split]]].
    + unfold sources_tab.
      apply (within_run _ _ _ w
               (mk_world ([header] ++ panels) (sources_var w) c' f'
                         (session w))).
      rewrite (bind_ui_run _ _ (emit _) _ _ _ tt eq_refl). exact R.
    + cbn [banners flat_map app]. exact Pb.
    + cbn [expander_labels flat_map app]. exact Pe.
    + exact Hf.
    + exact Hc.
Qed.

(** The block when nothing fails: the agent answers, the answer is
    formatted, the JSON text (for a mapping) is produced, and the pages
    are fetched or come from the cache. *)
Lemma search_success_form (query : pystr) (raw : pyval) (formatted : pystr)
      (w : world) :
  query <> [] ->
  manager_agent_run query = Return raw ->
  format_agent_response str_title raw = Return formatted ->
  (forall items, raw = Dict items -> exists data, json_dumps raw = Return data) ->
  exists drawn c' f',
    block true query w
    = (Return tt,
       mk_world (page w ++ [drawn]) (Some (sources formatted)) c' f'
                (record_query true query (session w)))
    /\ banners drawn = []
    /\ expander_labels drawn
       = map (fun p => expander_label (fst p) (snd p))
             (enumerate 1 (sources formatted))
    /\ f' = fetched w
            ++ first_occurrences (map fst (cache w)) (sources formatted)
    /\ (forall q, mem q (map fst c')
                  = mem q (map fst (cache w) ++ sources formatted)).
Proof.
  intros Hq A F J.
  destruct (draws_result_tab raw formatted J) as [json RT].
  set (w1 := mk_world [Tabs tab_labels; result_elements formatted json]
                      (Some (sources formatted)) (cache w) (fetched w)
                      (record_query true query (session w))).
  destruct (sources_tab_outcome (sources formatted) w1)
    as [el2 [c' [f' [ST [B2 [E2 [Hf Hc]]]]]]].
  cbn [page sources_var cache fetched session w1] in ST, Hf, Hc.
  exists (Within (Spinner (emoji_detective ++ lit " Researching..."))
            [Tabs tab_labels; result_elements formatted json; el2;
             analysis_elements (sources formatted) formatted]),
    c', f'.
  split; [|split; [|split; [|split]]].
  - apply (block_run query w
             (mk_world [Tabs tab_labels; result_elements formatted json; el2;
                        analysis_elements (sources formatted) formatted]
                       (Some (sources formatted)) c' f'
                       (record_query true query (session w)))
             (Return tt) Hq).
    unfold try_ui, search_try.
    rewrite (bind_ui_run _ _ (emit (Tabs tab_labels)) _ _ _ tt eq_refl).
    rewrite (bind_ui_run _ _ (lift (manager_agent_run query)) _ _ _ raw)
      by (unfold lift; now rewrite A).
    rewrite (bind_ui_run _ _ (lift (format_agent_response str_title raw))
               _ _ _ formatted) by (unfold lift; now rewrite F).
    rewrite (bind_ui_run _ _ (set_sources (sources formatted)) _ _ _ tt
               eq_refl).
    rewrite (bind_ui_run _ _ _ _ _ _ _ (RT _)).
    rewrite (bind_ui_run _ _ _ _ _ _ _ ST).
    rewrite (draws_analysis_tab (sources formatted) formatted). reflexivity.
  - cbn [banners flat_map app]. rewrite B2.
    unfold result_elements. now destruct json.
  - cbn [expander_labels flat_map app]. rewrite E2.
    unfold result_elements. destruct json; cbn [expander_labels flat_map app];
      now rewrite app_nil_r.
  - exact Hf.
  - exact Hc.
Qed.

(** When nothing fails the block ends normally without an error
    banner; the sources tab holds one expander per source, numbered
    from 1 in the order of the sources; [sources] is bound to the
    sources, and the query is recorded. A page that cannot be fetched
    does not count as a failure here, since [visit_webpage] answers
    with a text. *)
Theorem search_success_draws (query : pystr) (raw : pyval)
        (formatted : pystr) (w : world) :
  query <> [] ->
  manager_agent_run query = Return raw ->
  format_agent_response str_title raw = Return formatted ->
  (forall items, raw = Dict items -> exists data, json_dumps raw = Return data) ->
  exists w',
    block true query w = (Return tt, w')
    /\ flat_map banners (page w') = flat_map banners (page w)
    /\ flat_map expander_labels (page w')
       = flat_map expander_labels (page w)
         ++ map (fun p => expander_label (fst p) (snd p))
                (enumerate 1 (sources formatted))
    /\ sources_var w' = Some (sources formatted)
    /\ session w' = record_query true query (session w).
Proof.
  intros Hq A F J.
  destruct (search_success_form query raw formatted w Hq A F J)
    as [drawn [c' [f' [R [B [E _]]]]]].
  eexists; split; [exact R|].
  cbn [page sources_var session]. rewrite !flat_map_app. cbn [flat_map].
  rewrite B, E, !app_nil_r. repeat split.
Qed.

(** Over a search each source that is not in the cache yet is fetched
    once, in the order of its first appearance; a source listed again
    and a source cached by an earlier search are not fetched. Afterwards
    every source of the search is in the cache. *)
Theorem sources_fetched_once (query : pystr) (raw : pyval)
        (formatted : pystr) (w : world) :
  query <> [] ->
  manager_agent_run query = Return raw ->
  format_agent_response str_title raw = Return formatted ->
  (forall items, raw = Dict items -> exists data, json_dumps raw = Return data) ->
  exists w',
    block true query w = (Return tt, w')
    /\ fetched w'
       = fetched w
         ++ first_occurrences (map fst (cache w)) (sources formatted)
    /\ forall u, In u (sources formatted) ->
                 cache_lookup u (cache w') <> None.
Proof.
  intros Hq A F J.
  destruct (search_success_form query raw formatted w Hq A F J)
    as [drawn [c' [f' [R [_ [_ [Hf Hc]]]]]]].
  eexists; split; [exact R|]. cbn [fetched cache]. split; [exact Hf|].
  intros u Hu L. pose proof (Hc u) as M. rewrite mem_keys, L in M.
  symmetry in M. unfold mem in M. rewrite existsb_app in M.
  apply orb_false_iff in M as [_ M].
  assert (T : existsb (PyStr.eqb u) (sources formatted) = true)
    by (apply existsb_exists; exists u; split;
        [exact Hu | apply pystr_eqb_refl]).
  congruence.
Qed.

End SearchFacts.

(** A failed fetch is remembered as content: once the page of a URL
    could not be fetched, the error text sits in the cache, and every
    later request for the URL returns that text without fetching, also
    when the page can be fetched by then. *)
Theorem fetch_error_is_cached
        (get : pystr -> result Response) (convert : pystr -> result pystr)
        (url : pystr) (e : exc) (w : world) :
  cache_lookup url (cache w) = None ->
  get url = Raise e ->
  isinstance e RequestException = true ->
  exists w1,
    fetch_webpage_content get convert url w
    = (Return (lit "Error fetching the webpage: " ++ exc_str e), w1)
    /\ fetched w1 = fetched w ++ [url]
    /\ forall (get' : pystr -> result Response)
              (convert' : pystr -> result pystr),
         fetch_webpage_content get' convert' url w1
         = (Return (lit "Error fetching the webpage: " ++ exc_str e), w1).
Proof.
  intros L G R.
  assert (V : visit_webpage get convert url
              = Return (lit "Error fetching the webpage: " ++ exc_str e)).
  { apply visit_request_exception; [|exact R].
    unfold visit_webpage_try. now rewrite G. }
  eexists; split; [|split].
  - unfold fetch_webpage_content. rewrite L, V. reflexivity.
  - reflexivity.
  - intros get' convert'. unfold fetch_webpage_content, cache_lookup.
    cbn [cache find fst]. now rewrite pystr_eqb_refl.
Qed.

Lemma search_failure_shows_banner_witness :
  search_block (agent_answers (Dict [(AStr (lit "answer"), AInt 5)]))
    dumps_stub get_unreachable convert_text title_ascii
    true (lit "what is 2+3") empty_world
  = (Return tt,
     mk_world
       [Within (Spinner (emoji_detective ++ lit " Researching..."))
          [Tabs tab_labels;
           Error (emoji_siren
                  ++ lit " An error occurred: sequence item 1: expected str instance, int found");
           Markdown retry_tips]]
       None [] [] (mk_session (Some [lit "what is 2+3"]))).
Proof.
  exact (proj1 (search_failure_shows_banner
                  (agent_answers (Dict [(AStr (lit "answer"), AInt 5)]))
                  dumps_stub get_unreachable convert_text title_ascii
                  (lit "what is 2+3")
                  (mk_exc TypeError
                     (lit "sequence item 1: expected str instance, int found"))
                  empty_world
                  ltac:(discriminate) eq_refl eq_refl)).
Defined.

Lemma json_failure_keeps_result_witness :
  search_block
    (agent_answers (Dict [(AStr (lit "answer"), AStr (lit "42"));
                          (AStr (lit "tags"), AOpaque (mk_object (lit "set") (Return (lit "{1}")) None))]))
    (fun _ => Raise (mk_exc TypeError
                       (lit "Object of type set is not JSON serializable")))
    get_unreachable convert_text title_ascii true (lit "q") empty_world
  = (Return tt,
     mk_world
       [Within (Spinner (emoji_detective ++ lit " Researching..."))
          [Tabs tab_labels;
           result_elements (lit "## Answer" ++ [nl; nl] ++ lit "42") None;
           Error (emoji_siren
                  ++ lit " An error occurred: Object of type set is not JSON serializable");
           Markdown retry_tips]]
       (Some []) [] [] (mk_session (Some [lit "q"]))).
Proof.
  exact (json_failure_keeps_result
           (agent_answers
              (Dict [(AStr (lit "answer"), AStr (lit "42"));
                     (AStr (lit "tags"), AOpaque (mk_object (lit "set") (Return (lit "{1}")) None))]))
           (fun _ => Raise (mk_exc TypeError
                              (lit "Object of type set is not JSON serializable")))
           get_unreachable convert_text title_ascii (lit "q")
           [(AStr (lit "answer"), AStr (lit "42"));
            (AStr (lit "tags"), AOpaque (mk_object (lit "set") (Return (lit "{1}")) None))]
           (lit "## Answer" ++ [nl; nl] ++ lit "42")
           (mk_exc TypeError
              (lit "Object of type set is not JSON serializable"))
           empty_world ltac:(discriminate) eq_refl eq_refl eq_refl eq_refl).
Defined.

Lemma search_success_draws_witness :
  exists w',
    search_block (agent_answers (Atom (AStr (lit "see http://a.example/ and http://a.example/"))))
      dumps_stub get_unreachable convert_text title_ascii
      true (lit "q") empty_world = (Return tt, w')
    /\ flat_map banners (page w') = []
    /\ flat_map expander_labels (page w')
       = [lit "Source 1: http://a.example/"; lit "Source 2: http://a.example/"]
    /\ sources_var w' = Some [lit "http://a.example/"; lit "http://a.example/"]
    /\ session w' = mk_session (Some [lit "q"]).
Proof.
  apply (search_success_draws
           (agent_answers (Atom (AStr (lit "see http://a.example/ and http://a.example/"))))
           dumps_stub get_unreachable convert_text title_ascii
           (fun url => ex_intro _ _ eq_refl)
           (lit "q")
           (Atom (AStr (lit "see http://a.example/ and http://a.example/")))
           (lit "see http://a.example/ and http://a.example/")
           empty_world).
  - discriminate.
  - reflexivity.
  - reflexivity.
  - intros items H; discriminate H.
Defined.

Lemma sources_fetched_once_witness :
  exists w',
    search_block (agent_answers (Atom (AStr (lit "see http://a.example/ and http://a.example/"))))
      dumps_stub get_unreachable convert_text title_ascii
      true (lit "q") empty_world = (Return tt, w')
    /\ fetched w' = [lit "http://a.example/"]
    /\ forall u,
         In u [lit "http://a.example/"; lit "http://a.example/"] ->
         cache_lookup u (cache w') <> None.
Proof.
  apply (sources_fetched_once
           (agent_answers (Atom (AStr (lit "see http://a.example/ and http://a.example/"))))
           dumps_stub get_unreachable convert_text title_ascii
           (fun url => ex_intro _ _ eq_refl)
           (lit "q")
           (Atom (AStr (lit "see http://a.example/ and http://a.example/")))
           (lit "see http://a.example/ and http://a.example/")
           empty_world).
  - discriminate.
  - reflexivity.
  - reflexivity.
  - intros items H; discriminate H.
Defined.

Lemma fetch_error_is_cached_witness :
  exists w1,
    fetch_webpage_content get_unreachable convert_text
      (lit "http://nowhere.invalid/") empty_world
    = (Return (lit "Error fetching the webpage: HTTPConnectionPool(host='nowhere.invalid', port=80): Max retries exceeded with url: /"), w1)
    /\ fetched w1 = [lit "http://nowhere.invalid/"]
    /\ fetch_webpage_content (get_page (lit "<p>back</p>")) convert_text
         (lit "http://nowhere.invalid/") w1
       = (Return (lit "Error fetching the webpage: HTTPConnectionPool(host='nowhere.invalid', port=80): Max retries exceeded with url: /"), w1).
Proof.
  destruct (fetch_error_is_cached get_unreachable convert_text
              (lit "http://nowhere.invalid/")
              (mk_exc ConnectionError
                 (lit "HTTPConnectionPool(host='nowhere.invalid', port=80): Max retries exceeded with url: /"))
              empty_world eq_refl eq_refl eq_refl) as [w1 [F [Hf H]]].
  exists w1. split; [exact F | split; [exact Hf|]].
  apply (H (get_page (lit "<p>back</p>")) convert_text).
Defined.
